(** * MediRisk AI: the feature encoder, the risk evaluator, the explanation
    extractor and the session handler of [src/app.py], embedded in Rocq.

    Conventions of the embedding.
    - A Python [float] is an exact rational ([Q]); rounding and overflow of
      binary64 arithmetic are not modelled.  What IEEE arithmetic adds to the
      rationals and the code can reach is kept: a quotient by zero is [nan]
      or an infinity ([np_float]), and every comparison with [nan] is false.
      Only statements that rounding and overflow leave true are drawn from
      the exact sum and quotient (signs, bounds, order, the [nan] of [0/0]);
      [Binary64] runs the same lines on the machine's numbers where the two
      differ.
    - A Python [int] is a [Z]; a cell of the encoded row remembers which of
      the two it is ([pynum]).
    - A [dict] used only for lookups is a [gmap]; a [dict] whose order is
      observed (the importance mapping) is an association list with distinct
      keys, built by [dict_].
    - Code that can raise returns a [result]. *)

From Stdlib Require Import ZArith QArith Qabs Lqa.
From Stdlib Require PrimFloat.
From stdpp Require Import gmap strings list sorting.

Open Scope string_scope.
Open Scope list_scope.

(** ** Exceptions *)

Inductive exn := Exception (cls msg : string).

(** [str(e)] *)
Definition str (e : exn) : string := match e with Exception _ msg => msg end.

Inductive result (A : Type) :=
| Ok (a : A)
| Raise (e : exn).
Arguments Ok {A} a.
Arguments Raise {A} e.

#[global] Instance result_ret : MRet result := fun _ a => Ok a.
#[global] Instance result_bind : MBind result := fun _ _ f r =>
  match r with
  | Ok a => f a
  | Raise e => Raise e
  end.

(** [l[i]] on a Python sequence (non-negative index). *)
Definition getitem {A} (l : list A) (i : nat) : result A :=
  match l !! i with
  | Some a => Ok a
  | None => Raise (Exception "IndexError" "index out of range")
  end.

(** ** Numbers *)

Inductive pynum :=
| PyInt (z : Z)
| PyFloat (q : Q).

(** [float(n)] of an [int]. *)
Definition float (z : Z) : pynum := PyFloat (inject_Z z).

Definition num_value (n : pynum) : Q :=
  match n with
  | PyInt z => inject_Z z
  | PyFloat q => q
  end.

Definition Qltb (x y : Q) : bool := negb (Qle_bool y x).

(** The values of a numpy [float64] array, rounding aside. *)
Inductive np_float :=
| Fin (q : Q)
| PosInf
| NegInf
| NaN.

(** [a < b] on [float64]: false as soon as one side is [nan]. *)
Definition np_lt (a b : np_float) : bool :=
  match a, b with
  | NaN, _ | _, NaN => false
  | Fin x, Fin y => Qltb x y
  | NegInf, NegInf => false
  | NegInf, _ => true
  | _, NegInf => false
  | PosInf, _ => false
  | Fin _, PosInf => true
  end.

(** [0 <= a] on [float64]. *)
Definition np_nonneg (a : np_float) : bool :=
  match a with
  | Fin x => Qle_bool 0 x
  | PosInf => true
  | NegInf | NaN => false
  end.

(** [np.abs(v)] *)
Definition np_abs (v : list Q) : list Q := Qabs <$> v.

(** [np.sum(v)] *)
Definition np_sum (v : list Q) : Q := foldr Qplus 0%Q v.

(** [x / s] on [float64]: numpy does not raise on a zero divisor, it warns
    and stores [nan] for [0/0] and a signed infinity otherwise. *)
Definition np_divide (x s : Q) : np_float :=
  if Qeq_bool s 0 then
    if Qeq_bool x 0 then NaN
    else if Qltb 0 x then PosInf else NegInf
  else Fin (x / s).

(** [np.zeros(n)] *)
Definition np_zeros (n : nat) : list np_float := replicate n (Fin 0).

(** ** Ordered dictionaries and [sorted] *)

Section pydict.
Context {V : Type}.

(** [d[k] = v]: an existing key keeps its position. *)
Fixpoint dict_setitem (k : string) (v : V) (d : list (string * V))
  : list (string * V) :=
  match d with
  | [] => [(k, v)]
  | (k', v') :: d' =>
      if String.eqb k k' then (k, v) :: d'
      else (k', v') :: dict_setitem k v d'
  end.

(** [dict(pairs)] *)
Definition dict_ (pairs : list (string * V)) : list (string * V) :=
  foldl (fun d kv => dict_setitem kv.1 kv.2 d) [] pairs.

(** [d.items()] *)
Definition items (d : list (string * V)) : list (string * V) := d.
End pydict.

Section sorted.
Context {A K : Type} (lt : K -> K -> bool) (key : A -> K).
Implicit Types (l : list A) (reverse : bool).

(** One step of a stable ascending sort: [x] stood before every element
    of [l], so it stays before the elements it is not greater than. *)
Fixpoint insert_stable (x : A) (l : list A) : list A :=
  match l with
  | [] => [x]
  | y :: l' =>
      if lt (key y) (key x) then y :: insert_stable x l'
      else x :: y :: l'
  end.

Definition sort_stable (l : list A) : list A := foldr insert_stable [] l.

(** [x] may stand before [y] in ascending order of keys. *)
Definition ascending (x y : A) : Prop := lt (key y) (key x) = false.

(** [sorted(l, key=key, reverse=reverse)].  Python's sort is stable and
    compares with [<] only; with [reverse=True] it reverses the list,
    sorts it ascending and reverses the outcome, which keeps equal keys
    in their original order. *)
Definition sorted l reverse : list A :=
  if reverse then list.reverse (sort_stable (list.reverse l))
  else sort_stable l.
End sorted.

(** ** Feature encoder *)

Definition FEATURE_COLUMNS : list string :=
  [ "age"; "sex"; "cp"; "trestbps"; "chol";
    "fbs"; "restecg"; "thalach"; "exang";
    "oldpeak"; "slope"; "ca"; "thal" ].

Record DataFrame := mkDataFrame {
  columns : list string;
  data : list (list pynum)
}.

(** [pd.DataFrame(rows, columns=cols)]: refuses rows whose width is not the
    number of columns. *)
Definition pd_DataFrame (rows : list (list pynum)) (cols : list string)
  : result DataFrame :=
  if forallb (fun r => Nat.eqb (length r) (length cols)) rows
  then Ok (mkDataFrame cols rows)
  else Raise (Exception "ValueError" "columns passed do not match the data").

(** The cell of the first row under column [col]. *)
Definition cell (df : DataFrame) (col : string) : option pynum :=
  row ← head (data df);
  list_to_map (M := gmap string pynum) (zip (columns df) row) !! col.

Definition cp_map : gmap string Z :=
  {[ "Typical Angina" := 1%Z;
     "Atypical Angina" := 2%Z;
     "Non-anginal Pain" := 3%Z;
     "Asymptomatic" := 4%Z ]}.

Definition restecg_map : gmap string Z :=
  {[ "Normal" := 0%Z;
     "ST-T abnormality" := 1%Z;
     "LV hypertrophy" := 2%Z ]}.

Definition slope_map : gmap string Z :=
  {[ "Upsloping" := 1%Z;
     "Flat" := 2%Z;
     "Downsloping" := 3%Z ]}.

Definition thal_map : gmap string Z :=
  {[ "Normal" := 3%Z;
     "Fixed Defect" := 6%Z;
     "Reversible Defect" := 7%Z ]}.

(** [m.get(k, d)] *)
Definition get (m : gmap string Z) (k : string) (d : Z) : Z :=
  default d (m !! k).

(** The numeric arguments have the types of the widgets that feed them:
    integer sliders and the integer number input give [int], the ST
    depression slider (bounds [0.0] and [6.0]) gives [float], which
    [float(oldpeak)] returns unchanged. *)
Definition preprocess_inputs
    (age : Z) (gender cp : string) (trestbps chol glucose : Z)
    (restecg : string) (thalach : Z) (exang : string) (oldpeak : Q)
    (slope : string) (ca : Z) (thal : string) : result DataFrame :=
  let sex := if String.eqb gender "Male" then 1%Z else 0%Z in
  let fbs := if (120 <? glucose)%Z then 1%Z else 0%Z in
  let exang := if String.eqb exang "Yes" then 1%Z else 0%Z in
  let processed :=
    [ float age;
      PyInt sex;
      PyInt (get cp_map cp 4);
      float trestbps;
      float chol;
      PyInt fbs;
      PyInt (get restecg_map restecg 0);
      float thalach;
      PyInt exang;
      PyFloat oldpeak;
      PyInt (get slope_map slope 2);
      float ca;
      PyInt (get thal_map thal 3) ] in
  pd_DataFrame [processed] FEATURE_COLUMNS.

(** ** Risk evaluator *)

Inductive tier := LOW | MODERATE | HIGH.

Definition categorize_risk (prob : Q) : tier :=
  if Qltb prob 0.4 then LOW
  else if Qltb prob 0.7 then MODERATE
  else HIGH.

(** ** Model handles *)

(** What the code asks of a loaded classifier: the attributes it probes
    with [hasattr] (present or absent) and the [predict_proba] method.  A
    scikit-learn pipeline has [named_steps]; a tree or a forest has
    [feature_importances_]; a linear model has [coef_], one row of
    coefficients per class boundary. *)
#[warnings="-register-all"]
Inductive estimator := Estimator {
  named_steps : option (gmap string estimator);
  feature_importances_ : option (list Q);
  coef_ : option (list (list Q));
  predict_proba : DataFrame -> result (list (list Q))
}.

Definition predict_risk (model : estimator) (input_df : DataFrame) : result Q :=
  proba ← predict_proba model input_df;
  row ← getitem proba 0;
  getitem row 1.

(** The estimator the importances are read from (lines 115-117). *)
Definition inner_estimator (model : estimator) : estimator :=
  match named_steps model with
  | Some steps => default model (steps !! "model")
  | None => model
  end.

(** The [importance] array after the three-way branch (lines 119-125). *)
Definition importance_of (inner : estimator) : result (list np_float) :=
  match feature_importances_ inner with
  | Some fi => Ok (Fin <$> fi)
  | None =>
      match coef_ inner with
      | Some coef =>
          row ← getitem coef 0;
          let importance := np_abs row in
          Ok ((fun x => np_divide x (np_sum importance)) <$> importance)
      | None => Ok (np_zeros (length FEATURE_COLUMNS))
      end
  end.

Definition extract_feature_importance (model : estimator)
  : result (list (string * np_float)) :=
  let inner := inner_estimator model in
  importance ← importance_of inner;
  let feature_dict := dict_ (zip FEATURE_COLUMNS importance) in
  Ok (dict_ (sorted np_lt snd (items feature_dict) true)).

(** ** Session state and the script *)

(** [st.session_state]: each of the three keys is absent or holds a value. *)
Record session_state := SessionState {
  analysis_run : option bool;
  risk_prob : option Q;
  feature_imp : option (list (string * np_float))
}.

(** The state of a session that has not run the script yet. *)
Definition new_session : session_state := SessionState None None None.

(** Lines 22-27: a key that is absent gets its default, a key that is
    present is left alone. *)
Definition init_session_state (st : session_state) : session_state :=
  {| analysis_run := Some (default false (analysis_run st));
     risk_prob := Some (default 0%Q (risk_prob st));
     feature_imp := Some (default [] (feature_imp st)) |}.

(** The values of the widgets during one run of the script.  The model
    selection box returns [None] when it has no options. *)
Record widgets := Widgets {
  w_age : Z;
  w_gender : string;
  w_cp : string;
  w_trestbps : Z;
  w_chol : Z;
  w_thalach : Z;
  w_glucose : Z;
  w_restecg : string;
  w_exang : string;
  w_oldpeak : Q;
  w_slope : string;
  w_ca : Z;
  w_thal : string;
  w_model_name : option string;
  w_button : bool
}.

(** What one run writes to the page.  The gauge carries the values that
    are formatted into its markup; a factor line carries the feature name
    and the score that [round(value*100, 2)] is applied to. *)
Inductive ui_event :=
| st_error (msg : string)
| st_gauge (level : tier) (percent : Z) (color : string) (pulse : bool)
| st_write (feature : string) (value : np_float).

(** The call of the encoder on the widget values (lines 247-251). *)
Definition encode (w : widgets) : result DataFrame :=
  preprocess_inputs
    (w_age w) (w_gender w) (w_cp w) (w_trestbps w) (w_chol w)
    (w_glucose w) (w_restecg w) (w_thalach w)
    (w_exang w) (w_oldpeak w) (w_slope w) (w_ca w) (w_thal w).

(** The body of the [try] block (lines 247-255). *)
Definition evaluate (all_models : gmap string estimator) (w : widgets)
  : result (Q * list (string * np_float)) :=
  input_df ← encode w;
  model ← match w_model_name w ≫= (all_models !!.) with
          | Some m => Ok m
          | None => Raise (Exception "KeyError" (default "None" (w_model_name w)))
          end;
  prob ← predict_risk model input_df;
  importance ← extract_feature_importance model;
  Ok (prob, importance).

(** [dict(list(importance.items())[:5])] (line 263). *)
Definition top5 (importance : list (string * np_float))
  : list (string * np_float) :=
  dict_ (take 5 (items importance)).

(** [model_name in all_models] *)
Definition model_loaded (all_models : gmap string estimator)
    (model_name : option string) : bool :=
  match model_name ≫= (all_models !!.) with
  | Some _ => true
  | None => false
  end.

(** [int(x)]: truncation towards zero. *)
Definition int (x : Q) : Z := (Qnum x ÷ Zpos (Qden x))%Z.

(** Lines 266-294: the gauge and the list of factors. *)
Definition render (st : session_state) : list ui_event :=
  match analysis_run st, risk_prob st, feature_imp st with
  | Some true, Some prob, Some imp =>
      let level := categorize_risk prob in
      let percent := int (prob * 100) in
      let color :=
        match level with
        | LOW => "#22c55e"
        | MODERATE => "#facc15"
        | HIGH => "#ef4444"
        end in
      let pulse := match level with HIGH => true | _ => false end in
      st_gauge level percent color pulse
        :: ((fun fv => st_write fv.1 fv.2) <$> items imp)
  | _, _, _ => []
  end.

(** One run of the script from the session initialisation to its end or
    to [st.stop()]: the session state it leaves and what it displayed. *)
Definition script (all_models : gmap string estimator) (w : widgets)
    (st0 : session_state) : session_state * list ui_event :=
  let st := init_session_state st0 in
  if w_button w then
    if negb (model_loaded all_models (w_model_name w)) then
      (st, [st_error "Model not loaded properly."])
    else
      match evaluate all_models w with
      | Raise e => (st, [st_error "Prediction failed."; st_error (str e)])
      | Ok (prob, importance) =>
          let st' :=
            {| risk_prob := Some prob;
               feature_imp := Some (top5 importance);
               analysis_run := Some true |} in
          (st', render st')
      end
  else (st, render st).

(** A session: the script runs once per user action. *)
Definition run_session (all_models : gmap string estimator)
    (actions : list widgets) : session_state :=
  foldl (fun st w => (script all_models w st).1) new_session actions.

(** ** Sample model handles *)

(** A classifier that answers every record with the probability [p]. *)
Definition constant_proba (p : Q) (input_df : DataFrame)
  : result (list (list Q)) :=
  Ok [[(1 - p)%Q; p]].

(** A tree ensemble: impurity importances, no coefficients. *)
Definition sample_forest : estimator :=
  {| named_steps := None;
     feature_importances_ :=
       Some [0.10; 0.03; 0.15; 0.05; 0.07; 0.01; 0.02;
             0.12; 0.08; 0.11; 0.06; 0.14; 0.06]%Q;
     coef_ := None;
     predict_proba := constant_proba 0.82 |}.

(** A logistic regression with the given row of coefficients. *)
Definition linear_model (row : list Q) : estimator :=
  {| named_steps := None;
     feature_importances_ := None;
     coef_ := Some [row];
     predict_proba := constant_proba 0.35 |}.

(** A pipeline whose step ["model"] is [inner]; the pipeline object has
    neither importances nor coefficients of its own. *)
Definition pipeline (inner : estimator) : estimator :=
  {| named_steps := Some {[ "model" := inner ]};
     feature_importances_ := None;
     coef_ := None;
     predict_proba := predict_proba inner |}.

Definition sample_coefficients : list Q :=
  [0.5; -1; 2; 0.25; 0; -0.5; 0.75; -1.5; 1; 0.5; -0.25; 1.25; -0.5]%Q.

Definition sample_logistic : estimator :=
  pipeline (linear_model sample_coefficients).

(** A logistic regression all of whose coefficients are zero, as a strong
    L1 penalty produces. *)
Definition zero_logistic : estimator := linear_model (replicate 13 0%Q).

(** A classifier with nothing to introspect. *)
Definition opaque_model : estimator :=
  {| named_steps := None;
     feature_importances_ := None;
     coef_ := None;
     predict_proba := constant_proba 0.5 |}.

(** A classifier whose inference raises. *)
Definition broken_model : estimator :=
  {| named_steps := None;
     feature_importances_ := None;
     coef_ := None;
     predict_proba := fun _ =>
       Raise (Exception "ValueError" "X has 13 features, but 5 were expected") |}.

(** The widget values of a page that has just loaded, with the run button
    pressed or not. *)
Definition default_widgets (model_name : option string) (button : bool)
  : widgets :=
  {| w_age := 45; w_gender := "Male"; w_cp := "Typical Angina";
     w_trestbps := 120; w_chol := 190; w_thalach := 150; w_glucose := 100;
     w_restecg := "Normal"; w_exang := "No"; w_oldpeak := 1.0;
     w_slope := "Upsloping"; w_ca := 0; w_thal := "Normal";
     w_model_name := model_name; w_button := button |}.


(** ** Reading a session *)

(** Every key of the session state is present. *)
Definition initialised (st : session_state) : Prop :=
  is_Some (analysis_run st) /\ is_Some (risk_prob st) /\
  is_Some (feature_imp st).

(** The session state before any assessment and the one holding an
    assessment. *)
Definition idle_state : session_state :=
  SessionState (Some false) (Some 0%Q) (Some []).

Definition evaluated_state (prob : Q) (top : list (string * np_float))
  : session_state :=
  SessionState (Some true) (Some prob) (Some top).

(** The outcome of the last run of a session that went through: the run
    button was pressed, the selected model was loaded and nothing raised. *)
Definition last_success (all_models : gmap string estimator)
    (actions : list widgets) : option (Q * list (string * np_float)) :=
  foldl (fun acc w =>
           if w_button w && model_loaded all_models (w_model_name w) then
             match evaluate all_models w with
             | Ok r => Some r
             | Raise _ => acc
             end
           else acc)
        None actions.

(** ** Model loading *)

(** Lines 32-50.  [joblib_load] stands for
    [joblib.load(os.path.join(MODEL_DIR, name))] on the file system the
    process runs on: the artefact's file name gives the estimator or the
    exception of the load.  The dictionary display evaluates its three
    loads in order; any exception abandons it, is reported with two error
    boxes, and leaves the empty dictionary. *)
Definition load_models (joblib_load : string -> result estimator)
  : gmap string estimator * list ui_event :=
  match
    lr ← joblib_load "logistic_regression.pkl";
    dt ← joblib_load "decision_tree.pkl";
    rf ← joblib_load "random_forest.pkl";
    Ok ({[ "Logistic Regression" := lr;
           "Decision Tree" := dt;
           "Random Forest" := rf ]} : gmap string estimator)
  with
  | Ok models => (models, [])
  | Raise e => (∅, [st_error "🚨 Model loading failed"; st_error (str e)])
  end.

(** The artefact [name] loads. *)
Definition is_Ok_load (joblib_load : string -> result estimator)
    (name : string) : Prop :=
  exists model, joblib_load name = Ok model.

(** The three artefacts. *)
Definition model_files : list string :=
  ["logistic_regression.pkl"; "decision_tree.pkl"; "random_forest.pkl"].

(** ** The choices the widgets offer (lines 206-231) *)

Definition gender_options : list string := ["Male"; "Female"].

Definition cp_options : list string :=
  ["Typical Angina"; "Atypical Angina"; "Non-anginal Pain"; "Asymptomatic"].

Definition restecg_options : list string :=
  ["Normal"; "ST-T abnormality"; "LV hypertrophy"].

Definition exang_options : list string := ["No"; "Yes"].

Definition slope_options : list string := ["Upsloping"; "Flat"; "Downsloping"].

Definition thal_options : list string :=
  ["Normal"; "Fixed Defect"; "Reversible Defect"].

(** The categorical values of [w] are choices of their select boxes. *)
Definition from_select_boxes (w : widgets) : Prop :=
  w_gender w ∈ gender_options /\ w_cp w ∈ cp_options /\
  w_restecg w ∈ restecg_options /\ w_exang w ∈ exang_options /\
  w_slope w ∈ slope_options /\ w_thal w ∈ thal_options.

(** ** Reading results *)

(** The tiers in the order of their thresholds. *)
Definition tier_rank (t : tier) : nat :=
  match t with
  | LOW => 0
  | MODERATE => 1
  | HIGH => 2
  end.

(** More sample handles: a tree fitted on three features only, and a
    classifier fitted on a single class, whose [predict_proba] has one
    column. *)
Definition short_forest : estimator :=
  {| named_steps := None;
     feature_importances_ := Some [0.2; 0.5; 0.3]%Q;
     coef_ := None;
     predict_proba := constant_proba 0.5 |}.

(** A tree on four features whose importances come ranked, with a tie. *)
Definition ranked_forest : estimator :=
  {| named_steps := None;
     feature_importances_ := Some [0.5; 0.25; 0.25; 0]%Q;
     coef_ := None;
     predict_proba := constant_proba 0.5 |}.

(** A linear model with two rows of coefficients, the first one the
    sample row with every sign flipped. *)
Definition flipped_logistic : estimator :=
  {| named_steps := None;
     feature_importances_ := None;
     coef_ := Some [Qopp <$> sample_coefficients; sample_coefficients];
     predict_proba := constant_proba 0.5 |}.

Definition single_class_model : estimator :=
  {| named_steps := None;
     feature_importances_ := None;
     coef_ := None;
     predict_proba := fun _ => Ok [[1%Q]] |}.

(** A file system on which the forest artefact is missing. *)
Definition missing_forest (name : string) : result estimator :=
  if String.eqb name "random_forest.pkl"
  then Raise (Exception "FileNotFoundError" "No such file or directory")
  else Ok sample_logistic.

(** ** The linear branch on binary64 numbers *)

Module Binary64.
Import PrimFloat.

(** Lines 122-123 on the numbers the code runs on.  [np.sum] adds the
    entries in blocks; [sum] adds them from left to right.  On a row of
    thirteen equal entries whose partial sums are exact, or overflow at the
    first addition, every order gives the same sum. *)
Definition sum (v : list float) : float := foldl add 0%float v.

Definition scores (row : list float) : list float :=
  let importance := map abs row in
  map (fun x => div x (sum importance)) importance.

(** Thirteen coefficients equal to [1.0], and thirteen equal to [1e308],
    the largest power of ten below the overflow threshold. *)
Definition ones : list float := replicate 13 1%float.

Definition huge : float := 0x1.1ccf385ebc8ap+1023%float.

Definition huge_row : list float := replicate 13 huge.

End Binary64.

(** ** The whole page *)

(** One run of the page: the registry is obtained at line 52, then the
    handler and the renderer run.  [st.cache_resource] runs the body of
    [load_models] once and replays the error boxes it drew on every later
    run, so each run shows what the load showed, before anything else. *)
Definition page (joblib_load : string -> result estimator) (w : widgets)
    (st0 : session_state) : session_state * list ui_event :=
  let all_models := (load_models joblib_load).1 in
  let load_shown := (load_models joblib_load).2 in
  let run := script all_models w st0 in
  (run.1, load_shown ++ run.2).

(** * Properties *)

(** ** Rational comparisons *)

Lemma Qltb_lt (x y : Q) : Qltb x y = true <-> (x < y)%Q.
Proof.
  unfold Qltb. rewrite negb_true_iff, <- not_true_iff_false, Qle_bool_iff.
  split; [apply Qnot_le_lt | apply Qlt_not_le].
Qed.

Lemma Qltb_ge (x y : Q) : Qltb x y = false <-> (y <= x)%Q.
Proof.
  unfold Qltb. rewrite negb_false_iff. apply Qle_bool_iff.
Qed.

(** ** Risk tiers *)

(** C1: the tier is the step function of the probability with thresholds
    0.40 and 0.70: below 0.40 it is LOW, from 0.40 up to but excluding 0.70
    it is MODERATE, from 0.70 on it is HIGH; 0.39, 0.40, 0.69 and 0.70 fall
    in LOW, MODERATE, MODERATE and HIGH. *)
Theorem categorize_risk_step (p : Q) :
  ((p < 0.40)%Q -> categorize_risk p = LOW) /\
  ((0.40 <= p)%Q /\ (p < 0.70)%Q -> categorize_risk p = MODERATE) /\
  ((0.70 <= p)%Q -> categorize_risk p = HIGH) /\
  categorize_risk 0.39 = LOW /\
  categorize_risk 0.40 = MODERATE /\
  categorize_risk 0.69 = MODERATE /\
  categorize_risk 0.70 = HIGH.
Proof.
  assert (Hcases : forall b1 b2 : bool,
             Qltb p 0.4 = b1 -> Qltb p 0.7 = b2 ->
             (if b1 then (p < 0.4)%Q else (0.4 <= p)%Q) /\
             (if b2 then (p < 0.7)%Q else (0.7 <= p)%Q)).
  { intros [] [] H1 H2; split;
      first [ by apply Qltb_lt | by apply Qltb_ge ]. }
  unfold categorize_risk.
  destruct (Hcases _ _ eq_refl eq_refl) as [H4 H7].
  repeat split; try reflexivity;
    destruct (Qltb p 0.4), (Qltb p 0.7); try reflexivity;
    unfold Qlt, Qle in *; cbn in *; lia.
Qed.

(** ** Feature encoder *)

(** The encoder never raises: the row it builds has thirteen cells, one per
    column. *)
Lemma preprocess_inputs_ok age gender cp trestbps chol glucose restecg
    thalach exang oldpeak slope ca thal :
  preprocess_inputs age gender cp trestbps chol glucose restecg thalach
    exang oldpeak slope ca thal
  = Ok (mkDataFrame FEATURE_COLUMNS
          [[ float age;
             PyInt (if String.eqb gender "Male" then 1 else 0);
             PyInt (get cp_map cp 4);
             float trestbps;
             float chol;
             PyInt (if (120 <? glucose)%Z then 1 else 0);
             PyInt (get restecg_map restecg 0);
             float thalach;
             PyInt (if String.eqb exang "Yes" then 1 else 0);
             PyFloat oldpeak;
             PyInt (get slope_map slope 2);
             float ca;
             PyInt (get thal_map thal 3) ]]).
Proof. reflexivity. Qed.

(** C2: the scenario of a 45 year old male with typical angina encodes to
    the row 45, 1, 1, 120, 190, 0, 0, 150, 0, 1.0, 1, 0, 3 under the columns
    age, sex, cp, trestbps, chol, fbs, restecg, thalach, exang, oldpeak,
    slope, ca, thal. *)
Theorem preprocess_inputs_scenario_1 :
  exists row,
    preprocess_inputs 45 "Male" "Typical Angina" 120 190 100 "Normal" 150
      "No" 1.0 "Upsloping" 0 "Normal"
    = Ok (mkDataFrame
            [ "age"; "sex"; "cp"; "trestbps"; "chol"; "fbs"; "restecg";
              "thalach"; "exang"; "oldpeak"; "slope"; "ca"; "thal" ]
            [row]) /\
    length row = 13 /\
    num_value <$> row
    = [45; 1; 1; 120; 190; 0; 0; 150; 0; 1.0; 1; 0; 3]%Q /\
    row = [ PyFloat 45; PyInt 1; PyInt 1; PyFloat 120; PyFloat 190;
            PyInt 0; PyInt 0; PyFloat 150; PyInt 0; PyFloat 1.0;
            PyInt 1; PyFloat 0; PyInt 3 ].
Proof. eexists. repeat split; reflexivity. Qed.

(** C3: the fasting blood sugar cell is 1 exactly when the glucose reading
    is strictly above 120 and 0 otherwise; 150 gives 1 and 120 gives 0. *)
Theorem fbs_flag_threshold (w : widgets) :
  exists df flag,
    encode w = Ok df /\
    cell df "fbs" = Some (PyInt flag) /\
    (flag = 1%Z <-> (120 < w_glucose w)%Z) /\
    (flag = 0%Z <-> (w_glucose w <= 120)%Z) /\
    (w_glucose w = 150%Z -> flag = 1%Z) /\
    (w_glucose w = 120%Z -> flag = 0%Z).
Proof.
  unfold encode. rewrite preprocess_inputs_ok.
  eexists _, _. split; [reflexivity |]. split; [reflexivity |].
  destruct (Z.ltb_spec 120 (w_glucose w)); repeat split; lia.
Qed.

(** Lookups in the four closed tables. *)
Ltac case_key s k :=
  destruct (String.eqb_spec s k) as [-> | ?]; [reflexivity |].

Ltac skip_keys :=
  rewrite !lookup_insert_ne, lookup_singleton_ne by congruence;
  reflexivity.

Lemma get_cp_map (s : string) :
  get cp_map s 4 =
    if String.eqb s "Typical Angina" then 1%Z
    else if String.eqb s "Atypical Angina" then 2%Z
    else if String.eqb s "Non-anginal Pain" then 3%Z
    else 4%Z.
Proof.
  unfold get, cp_map.
  case_key s "Typical Angina".
  case_key s "Atypical Angina".
  case_key s "Non-anginal Pain".
  destruct (decide (s = "Asymptomatic")) as [-> | ?]; [reflexivity |].
  skip_keys.
Qed.

Lemma get_restecg_map (s : string) :
  get restecg_map s 0 =
    if String.eqb s "ST-T abnormality" then 1%Z
    else if String.eqb s "LV hypertrophy" then 2%Z
    else 0%Z.
Proof.
  unfold get, restecg_map.
  case_key s "ST-T abnormality".
  case_key s "LV hypertrophy".
  destruct (decide (s = "Normal")) as [-> | ?]; [reflexivity |].
  skip_keys.
Qed.

Lemma get_slope_map (s : string) :
  get slope_map s 2 =
    if String.eqb s "Upsloping" then 1%Z
    else if String.eqb s "Downsloping" then 3%Z
    else 2%Z.
Proof.
  unfold get, slope_map.
  case_key s "Upsloping".
  case_key s "Downsloping".
  destruct (decide (s = "Flat")) as [-> | ?]; [reflexivity |].
  skip_keys.
Qed.

Lemma get_thal_map (s : string) :
  get thal_map s 3 =
    if String.eqb s "Fixed Defect" then 6%Z
    else if String.eqb s "Reversible Defect" then 7%Z
    else 3%Z.
Proof.
  unfold get, thal_map.
  case_key s "Fixed Defect".
  case_key s "Reversible Defect".
  destruct (decide (s = "Normal")) as [-> | ?]; [reflexivity |].
  skip_keys.
Qed.

(** A string outside a table is none of its keys. *)
Ltac outside_table H :=
  repeat match goal with
         | |- context [String.eqb ?s ?k] =>
             destruct (String.eqb_spec s k) as [Heq | ?];
             [exfalso; apply H; rewrite Heq; set_solver |]
         end;
  reflexivity.

(** C4: the chest pain, resting ECG, ST slope and thalassemia encodings
    are total: the encoder returns a frame for every choice of strings, a
    string of a table is sent to its code, and every other string is sent to
    the default of its table (4, 0, 2 and 3). *)
Theorem categorical_encodings_total (w : widgets) :
  exists df cp restecg slope thal,
    encode w = Ok df /\
    cell df "cp" = Some (PyInt cp) /\
    cell df "restecg" = Some (PyInt restecg) /\
    cell df "slope" = Some (PyInt slope) /\
    cell df "thal" = Some (PyInt thal) /\
    ((w_cp w = "Typical Angina" -> cp = 1%Z) /\
     (w_cp w = "Atypical Angina" -> cp = 2%Z) /\
     (w_cp w = "Non-anginal Pain" -> cp = 3%Z) /\
     (w_cp w = "Asymptomatic" -> cp = 4%Z) /\
     (w_cp w ∉ [ "Typical Angina"; "Atypical Angina"; "Non-anginal Pain";
                 "Asymptomatic" ] -> cp = 4%Z)) /\
    ((w_restecg w = "Normal" -> restecg = 0%Z) /\
     (w_restecg w = "ST-T abnormality" -> restecg = 1%Z) /\
     (w_restecg w = "LV hypertrophy" -> restecg = 2%Z) /\
     (w_restecg w ∉ [ "Normal"; "ST-T abnormality"; "LV hypertrophy" ] ->
      restecg = 0%Z)) /\
    ((w_slope w = "Upsloping" -> slope = 1%Z) /\
     (w_slope w = "Flat" -> slope = 2%Z) /\
     (w_slope w = "Downsloping" -> slope = 3%Z) /\
     (w_slope w ∉ [ "Upsloping"; "Flat"; "Downsloping" ] -> slope = 2%Z)) /\
    ((w_thal w = "Normal" -> thal = 3%Z) /\
     (w_thal w = "Fixed Defect" -> thal = 6%Z) /\
     (w_thal w = "Reversible Defect" -> thal = 7%Z) /\
     (w_thal w ∉ [ "Normal"; "Fixed Defect"; "Reversible Defect" ] ->
      thal = 3%Z)).
Proof.
  unfold encode. rewrite preprocess_inputs_ok.
  eexists _, _, _, _, _.
  split; [reflexivity |]. do 4 (split; [reflexivity |]).
  rewrite get_cp_map, get_restecg_map, get_slope_map, get_thal_map.
  repeat split; intros H; try (rewrite H; reflexivity); outside_table H.
Qed.

(** ** Ordered dictionaries *)

Section pydict_facts.
Context {V : Type}.
Implicit Types (d l : list (string * V)).

Lemma dict_setitem_fresh k (v : V) d :
  k ∉ d.*1 -> dict_setitem k v d = d ++ [(k, v)].
Proof.
  induction d as [| [k' v'] d IH]; intros Hk; [reflexivity |].
  cbn in *. apply not_elem_of_cons in Hk as [Hne Hk].
  destruct (String.eqb_spec k k'); [congruence |].
  by rewrite IH.
Qed.

Lemma foldl_dict_setitem d l :
  NoDup (d ++ l).*1 ->
  foldl (fun d kv => dict_setitem kv.1 kv.2 d) d l = d ++ l.
Proof.
  revert d. induction l as [| [k v] l IH]; intros d Hnd; cbn.
  { by rewrite app_nil_r. }
  assert (Hk : k ∉ d.*1).
  { rewrite fmap_app in Hnd. apply NoDup_app in Hnd as (_ & Hd & _).
    intros Hin. apply (Hd _ Hin). cbn. left. }
  rewrite dict_setitem_fresh by done.
  rewrite IH; rewrite <- app_assoc; done.
Qed.

(** Building a dictionary from pairs with distinct keys keeps the pairs
    and their order. *)
Lemma dict_NoDup l : NoDup l.*1 -> dict_ l = l.
Proof. intros Hnd. by apply (foldl_dict_setitem []). Qed.
End pydict_facts.

Lemma NoDup_fst_zip {A B} (l : list A) (k : list B) :
  NoDup l -> NoDup (zip l k).*1.
Proof.
  revert k. induction l as [| x l IH]; intros [| y k] Hnd; cbn;
    try constructor.
  - apply NoDup_cons in Hnd as [Hx _]. intros Hin. apply Hx.
    apply list_elem_of_fmap in Hin as ([x' y'] & -> & Hin).
    by apply elem_of_zip_l in Hin.
  - apply IH. by apply NoDup_cons in Hnd as [_ ?].
Qed.

Lemma NoDup_FEATURE_COLUMNS : NoDup FEATURE_COLUMNS.
Proof. apply (bool_decide_unpack _). vm_compute. reflexivity. Qed.

(** ** [sorted] *)

Section sorted_facts.
Context {A K : Type} (lt : K -> K -> bool) (key : A -> K).
Implicit Types (l : list A) (x : A).

Lemma insert_stable_Permutation x l : insert_stable lt key x l ≡ₚ x :: l.
Proof.
  induction l as [| y l IH]; cbn; [done |].
  destruct (lt (key y) (key x)); [| done].
  rewrite IH. apply Permutation_swap.
Qed.

Lemma sort_stable_Permutation l : sort_stable lt key l ≡ₚ l.
Proof.
  induction l as [| x l IH]; [done |].
  change (sort_stable lt key (x :: l))
    with (insert_stable lt key x (sort_stable lt key l)).
  by rewrite insert_stable_Permutation, IH.
Qed.

Lemma sorted_Permutation l reverse : sorted lt key l reverse ≡ₚ l.
Proof.
  destruct reverse; cbn.
  - by rewrite reverse_Permutation, sort_stable_Permutation,
      reverse_Permutation.
  - apply sort_stable_Permutation.
Qed.

(** Sorting is correct on keys that [lt] orders as a strict weak order:
    [dom] holds of the keys in the list, and on [dom] the comparison is
    asymmetric and its complement is transitive. *)
Context (dom : K -> Prop).
Context (lt_asym : forall a b, dom a -> dom b -> lt a b = true -> lt b a = false).
Context (ge_trans : forall a b c, dom a -> dom b -> dom c ->
                      lt b a = false -> lt c b = false -> lt c a = false).

Local Abbreviation asc := (ascending lt key).

Lemma insert_stable_sorted x l :
  dom (key x) -> Forall (fun y => dom (key y)) l ->
  StronglySorted asc l -> StronglySorted asc (insert_stable lt key x l).
Proof.
  intros Hx Hl Hs. induction Hs as [| y l Hs IH Hy]; cbn.
  { repeat constructor. }
  apply Forall_cons in Hl as [Hdy Hl].
  destruct (lt (key y) (key x)) eqn:Hlt.
  - constructor; [by apply IH |].
    rewrite insert_stable_Permutation. constructor; [| done].
    by apply lt_asym.
  - constructor; [by constructor |].
    constructor; [done |].
    rewrite Forall_forall in Hy, Hl |- *. intros z Hz.
    apply (ge_trans _ (key y)); auto. by apply Hy.
Qed.

Lemma sort_stable_sorted l :
  Forall (fun y => dom (key y)) l ->
  StronglySorted asc (sort_stable lt key l).
Proof.
  induction l as [| x l IH]; intros Hl; [constructor |].
  apply Forall_cons in Hl as [Hx Hl].
  change (sort_stable lt key (x :: l))
    with (insert_stable lt key x (sort_stable lt key l)).
  apply insert_stable_sorted; auto.
  by rewrite sort_stable_Permutation.
Qed.

Lemma StronglySorted_reverse (R : relation A) l :
  StronglySorted R l -> StronglySorted (flip R) (reverse l).
Proof.
  induction 1 as [| x l Hs IH Hx]; [constructor |].
  rewrite reverse_cons. apply StronglySorted_app_2; [| done | repeat constructor].
  intros y x' Hy ->%list_elem_of_singleton.
  rewrite elem_of_reverse in Hy. rewrite Forall_forall in Hx. by apply Hx.
Qed.

(** With [reverse=True] no element is followed by one with a greater
    key. *)
Lemma sorted_reverse_sorted l :
  Forall (fun y => dom (key y)) l ->
  StronglySorted (fun x y => lt (key x) (key y) = false)
    (sorted lt key l true).
Proof.
  intros Hl. cbn. apply (StronglySorted_reverse asc).
  apply sort_stable_sorted. by rewrite reverse_Permutation.
Qed.
End sorted_facts.

(** ** The order of scores *)

Lemma np_lt_asym (a b : np_float) : np_lt a b = true -> np_lt b a = false.
Proof.
  destruct a as [x | | |], b as [y | | |]; cbn; try done.
  rewrite Qltb_lt, Qltb_ge. apply Qlt_le_weak.
Qed.

Lemma np_ge_trans (a b c : np_float) :
  b <> NaN -> np_lt b a = false -> np_lt c b = false -> np_lt c a = false.
Proof.
  destruct a as [x | | |], b as [y | | |], c as [z | | |]; cbn; try done.
  rewrite !Qltb_ge. intros _ Hxy Hyz. by apply Qle_trans with y.
Qed.

(** ** Sums of absolute values *)

Lemma np_sum_abs_cons (x : Q) (v : list Q) :
  np_sum (np_abs (x :: v)) = (Qabs x + np_sum (np_abs v))%Q.
Proof. reflexivity. Qed.

Lemma np_sum_abs_nonneg (v : list Q) : (0 <= np_sum (np_abs v))%Q.
Proof.
  induction v as [| x v IH]; [apply Qle_refl |].
  rewrite np_sum_abs_cons. pose proof (Qabs_nonneg x). lra.
Qed.

(** A sum of absolute values is zero only when every term is. *)
Lemma np_sum_abs_zero (v : list Q) :
  (np_sum (np_abs v) == 0)%Q -> Forall (fun x => (x == 0)%Q) (np_abs v).
Proof.
  induction v as [| x v IH]; [constructor |].
  rewrite np_sum_abs_cons. intros Hs.
  pose proof (Qabs_nonneg x). pose proof (np_sum_abs_nonneg v).
  constructor; [lra |]. apply IH. lra.
Qed.

(** ** Explanation extractor *)

(** The scores of one model are all numbers or all [nan]. *)
Lemma importance_of_homogeneous inner importance :
  importance_of inner = Ok importance ->
  Forall (fun v => v <> NaN) importance \/
  Forall (fun v => v = NaN) importance.
Proof.
  unfold importance_of.
  destruct (feature_importances_ inner) as [fi |].
  { intros [= <-]. left. apply Forall_fmap, Forall_true. done. }
  destruct (coef_ inner) as [coef |]; cycle 1.
  { intros [= <-]. left. apply Forall_replicate. done. }
  destruct (getitem coef 0) as [row | e]; cbn; [| done].
  intros [= <-]. set (s := np_sum (np_abs row)).
  destruct (Qeq_bool s 0) eqn:Hs.
  - right. pose proof Hs as Hzero.
    apply Qeq_bool_iff, np_sum_abs_zero in Hzero.
    apply Forall_fmap. eapply Forall_impl; [exact Hzero |].
    intros x Hx. cbn. unfold np_divide. fold s. rewrite Hs.
    apply Qeq_bool_iff in Hx. by rewrite Hx.
  - left. apply Forall_fmap, Forall_true. intros x. cbn.
    unfold np_divide. by rewrite Hs.
Qed.

(** The two [dict] constructions of the extractor keep the pairs they are
    given: the feature names are distinct. *)
Lemma extract_feature_importance_sorted_zip model :
  extract_feature_importance model =
    importance ← importance_of (inner_estimator model);
    Ok (sorted np_lt snd (zip FEATURE_COLUMNS importance) true).
Proof.
  unfold extract_feature_importance.
  destruct (importance_of (inner_estimator model)) as [imp | e];
    cbn [mbind result_bind]; [| done].
  assert (Hnd : NoDup (zip FEATURE_COLUMNS imp).*1)
    by apply NoDup_fst_zip, NoDup_FEATURE_COLUMNS.
  unfold items. rewrite (dict_NoDup (zip _ _)) by done.
  rewrite dict_NoDup; [done |].
  by rewrite (sorted_Permutation np_lt snd _ true).
Qed.

Lemma extract_feature_importance_inv model d :
  extract_feature_importance model = Ok d ->
  exists importance,
    importance_of (inner_estimator model) = Ok importance /\
    d = sorted np_lt snd (zip FEATURE_COLUMNS importance) true.
Proof.
  rewrite extract_feature_importance_sorted_zip.
  destruct (importance_of _) as [imp | e]; cbn; [| done].
  intros [= <-]. eauto.
Qed.

Lemma extract_feature_importance_NoDup model d :
  extract_feature_importance model = Ok d -> NoDup d.*1.
Proof.
  intros (imp & _ & ->)%extract_feature_importance_inv.
  rewrite (sorted_Permutation np_lt snd _ true).
  apply NoDup_fst_zip, NoDup_FEATURE_COLUMNS.
Qed.

(** No entry of the mapping is followed by one with a greater score. *)
Lemma extract_feature_importance_descending model d :
  extract_feature_importance model = Ok d ->
  StronglySorted (fun a b => np_lt a.2 b.2 = false) d.
Proof.
  intros (imp & Himp & ->)%extract_feature_importance_inv.
  assert (Hsnd : forall P : np_float -> Prop,
             Forall P imp ->
             Forall (fun y => P y.2) (zip FEATURE_COLUMNS imp)).
  { intros P HP. apply Forall_forall. intros [k v] Hin.
    apply elem_of_zip_r in Hin. by apply (proj1 (Forall_forall _ _) HP). }
  destruct (importance_of_homogeneous _ _ Himp) as [Hnum | Hnan].
  - apply (sorted_reverse_sorted np_lt snd (fun v => v <> NaN)).
    + intros a b _ _. apply np_lt_asym.
    + intros a b c _ Hb _. by apply np_ge_trans.
    + by apply (Hsnd (fun v => v <> NaN)).
  - apply (sorted_reverse_sorted np_lt snd (fun v => v = NaN)).
    + by intros a b -> ->.
    + by intros a b c -> -> ->.
    + by apply (Hsnd (fun v => v = NaN)).
Qed.

(** Entries further apart than neighbours are ordered too. *)
Lemma StronglySorted_lookup {A} (R : relation A) (l : list A) i j x y :
  StronglySorted R l -> (i < j)%nat ->
  l !! i = Some x -> l !! j = Some y -> R x y.
Proof.
  intros Hs Hij Hi Hj. rewrite <- (take_drop j l) in Hs.
  apply (StronglySorted_app_1_elem_of R _ _ x y Hs).
  - apply elem_of_take. eauto.
  - apply list_elem_of_lookup. exists 0%nat.
    by rewrite lookup_drop, Nat.add_0_r.
Qed.

Lemma top5_take model importance :
  extract_feature_importance model = Ok importance ->
  top5 importance = take 5 importance.
Proof.
  intros Hnd%extract_feature_importance_NoDup.
  unfold top5, items. apply dict_NoDup.
  rewrite fmap_take. eapply sublist_NoDup; [exact Hnd | apply sublist_take].
Qed.

(** C5: the mapping the extractor returns is in descending order of score
    (no entry is followed by one with a greater score; between numbers, the
    later score is at most the earlier one), the caller keeps its first five
    entries, so at most five pairs are displayed, and no displayed score is
    less than a score that is left out. *)
Theorem top5_greatest_scores model importance :
  extract_feature_importance model = Ok importance ->
  StronglySorted (fun a b => np_lt a.2 b.2 = false) importance /\
  (forall i j a b x y,
      (i < j)%nat ->
      importance !! i = Some (a, Fin x) ->
      importance !! j = Some (b, Fin y) ->
      (y <= x)%Q) /\
  top5 importance = take 5 importance /\
  (length (top5 importance) <= 5)%nat /\
  (forall shown hidden,
      shown ∈ top5 importance -> hidden ∈ drop 5 importance ->
      np_lt shown.2 hidden.2 = false).
Proof.
  intros Hex.
  pose proof (extract_feature_importance_descending _ _ Hex) as Hs.
  pose proof (top5_take _ _ Hex) as Htop.
  repeat split; try done.
  - intros i j a b x y Hij Hi Hj.
    apply Qltb_ge.
    apply (StronglySorted_lookup _ _ _ _ _ _ Hs Hij Hi Hj).
  - rewrite Htop, length_take. lia.
  - rewrite Htop. intros shown hidden Hshown Hhidden.
    rewrite <- (take_drop 5 importance) in Hs.
    apply (StronglySorted_app_1_elem_of _ _ _ _ _ Hs Hshown Hhidden).
Qed.

Lemma top5_greatest_scores_witness :
  extract_feature_importance sample_forest
  = Ok [ ("cp", Fin 0.15); ("ca", Fin 0.14); ("thalach", Fin 0.12);
         ("oldpeak", Fin 0.11); ("age", Fin 0.10); ("exang", Fin 0.08);
         ("chol", Fin 0.07); ("slope", Fin 0.06); ("thal", Fin 0.06);
         ("trestbps", Fin 0.05); ("sex", Fin 0.03); ("restecg", Fin 0.02);
         ("fbs", Fin 0.01) ] /\
  top5 [ ("cp", Fin 0.15); ("ca", Fin 0.14); ("thalach", Fin 0.12);
         ("oldpeak", Fin 0.11); ("age", Fin 0.10); ("exang", Fin 0.08);
         ("chol", Fin 0.07); ("slope", Fin 0.06); ("thal", Fin 0.06);
         ("trestbps", Fin 0.05); ("sex", Fin 0.03); ("restecg", Fin 0.02);
         ("fbs", Fin 0.01) ]
  = [ ("cp", Fin 0.15); ("ca", Fin 0.14); ("thalach", Fin 0.12);
      ("oldpeak", Fin 0.11); ("age", Fin 0.10) ].
Proof.
  split; [reflexivity |].
  exact (proj1 (proj2 (proj2
           (top5_greatest_scores sample_forest _ eq_refl)))).
Defined.

(** *** The linear branch *)

(** With a non-zero sum the division yields numbers. *)
Lemma importance_of_linear inner row rest :
  feature_importances_ inner = None ->
  coef_ inner = Some (row :: rest) ->
  ~ (np_sum (np_abs row) == 0)%Q ->
  importance_of inner
  = Ok (Fin <$> ((fun x => x / np_sum (np_abs row))%Q <$> np_abs row)).
Proof.
  intros Hfi Hcoef Hs. unfold importance_of. rewrite Hfi, Hcoef. cbn.
  f_equal. rewrite <- list_fmap_compose. apply list_fmap_ext.
  intros _ x _. cbn. unfold np_divide.
  destruct (Qeq_bool _ 0) eqn:Heq; [| done].
  by apply Qeq_bool_iff in Heq.
Qed.

Lemma elem_of_np_abs_le_sum (row : list Q) (x : Q) :
  x ∈ np_abs row -> (0 <= x <= np_sum (np_abs row))%Q.
Proof.
  induction row as [| c row IH]; [by intros ?%elem_of_nil |].
  rewrite np_sum_abs_cons. change (np_abs (c :: row)) with (Qabs c :: np_abs row).
  pose proof (Qabs_nonneg c). pose proof (np_sum_abs_nonneg row).
  intros [-> | Hin]%elem_of_cons; [lra |].
  specialize (IH Hin). lra.
Qed.




(** On binary64 numbers the scores of thirteen equal coefficients are
    thirteen times the rounded quotient 1/13 and add up to less than one;
    the exact sum of C7 is a property of the rationals only. *)
Lemma thirteen_equal_coefficients_sum_below_one :
  Binary64.scores Binary64.ones
  = replicate 13 (PrimFloat.div PrimFloat.one (Binary64.sum Binary64.ones))
  /\
  PrimFloat.ltb (Binary64.sum (Binary64.scores Binary64.ones)) PrimFloat.one
  = true.
Proof. split; vm_compute; reflexivity. Qed.

(** When the sum of the absolute values overflows, every score is zero. *)
Lemma overflowing_coefficients_score_zero :
  Binary64.sum (map PrimFloat.abs Binary64.huge_row) = PrimFloat.infinity /\
  Binary64.scores Binary64.huge_row = replicate 13 PrimFloat.zero.
Proof. split; vm_compute; reflexivity. Qed.

(** C6 at the logistic regression with zero coefficients: the extractor
    returns thirteen entries, and none of them is non-negative, each being
    the [nan] of [0/0]. *)
Theorem zero_logistic_scores_not_nonnegative :
  extract_feature_importance zero_logistic
  = Ok (zip FEATURE_COLUMNS (replicate 13 NaN)) /\
  length (zip FEATURE_COLUMNS (replicate 13 NaN)) = 13%nat /\
  Forall (fun e => np_nonneg e.2 = false)
    (zip FEATURE_COLUMNS (replicate 13 NaN)).
Proof.
  split; [reflexivity |]. split; [reflexivity |].
  apply Forall_forall. intros [name v] Hin%elem_of_zip_r.
  by apply elem_of_replicate in Hin as [-> _].
Qed.

(** C10 at the logistic regression with zero coefficients: the model
    reaches the linear branch, the sum of the absolute values of its
    coefficients is zero, and the division stores [nan] for each score. *)
Theorem zero_logistic_divides_by_zero :
  feature_importances_ (inner_estimator zero_logistic) = None /\
  coef_ (inner_estimator zero_logistic) = Some [replicate 13 0%Q] /\
  (np_sum (np_abs (replicate 13 0%Q)) == 0)%Q /\
  importance_of (inner_estimator zero_logistic) = Ok (replicate 13 NaN).
Proof. repeat split. Qed.

(** What holds of every well-formed handle outside that case: with
    thirteen non-negative native importances, or thirteen coefficients that
    are not all zero, or nothing to introspect, the extractor returns one
    non-negative entry per feature name, and zeros when there is nothing to
    introspect. *)
Lemma extract_feature_importance_entries model :
  match feature_importances_ (inner_estimator model),
        coef_ (inner_estimator model) with
  | Some fi, _ => length fi = 13%nat /\ Forall (fun x => (0 <= x)%Q) fi
  | None, Some coef =>
      exists row, head coef = Some row /\ length row = 13%nat /\
                  ~ (np_sum (np_abs row) == 0)%Q
  | None, None => True
  end ->
  exists d,
    extract_feature_importance model = Ok d /\
    length d = 13%nat /\
    d.*1 ≡ₚ FEATURE_COLUMNS /\
    Forall (fun e => np_nonneg e.2 = true) d /\
    (feature_importances_ (inner_estimator model) = None ->
     coef_ (inner_estimator model) = None ->
     Forall (fun e => e.2 = Fin 0) d).
Proof.
  intros Hwf.
  assert (Himp : exists imp,
             importance_of (inner_estimator model) = Ok imp /\
             length imp = 13%nat /\
             Forall (fun v => np_nonneg v = true) imp /\
             (feature_importances_ (inner_estimator model) = None ->
              coef_ (inner_estimator model) = None ->
              Forall (fun v => v = Fin 0) imp)).
  { destruct (feature_importances_ (inner_estimator model)) as [fi |] eqn:Hfi.
    { destruct Hwf as [Hlen Hpos]. exists (Fin <$> fi).
      unfold importance_of. rewrite Hfi, length_fmap.
      repeat split; try done.
      apply Forall_fmap. eapply Forall_impl; [exact Hpos |].
      intros x Hx. by apply Qle_bool_iff. }
    destruct (coef_ (inner_estimator model)) as [coef |] eqn:Hcoef.
    - destruct Hwf as (row & Hhead & Hlen & Hs).
      destruct coef as [| row' rest]; [done |]. injection Hhead as ->.
      eexists. split; [by apply (importance_of_linear _ row rest) |].
      unfold np_abs at 2 4 6.
      split; [by rewrite !length_fmap |]. split; [| done].
      apply Forall_fmap, Forall_fmap, Forall_fmap, Forall_true.
      intros x. cbn. apply Qle_bool_iff.
      pose proof (Qabs_nonneg x). pose proof (np_sum_abs_nonneg row).
      apply Qle_shift_div_l; [| lra].
      apply Qle_lteq in H0 as [? | Heq]; [done |].
      exfalso. apply Hs. by symmetry.
    - exists (np_zeros (length FEATURE_COLUMNS)).
      unfold importance_of, np_zeros. rewrite Hfi, Hcoef.
      split; [done |]. split; [by rewrite length_replicate |].
      split; [| intros _ _]; by apply Forall_replicate. }
  destruct Himp as (imp & Himp & Hlen & Hpos & Hzero).
  assert (Hvals : forall P : np_float -> Prop,
             Forall P imp ->
             Forall (fun e => P e.2)
               (sorted np_lt snd (zip FEATURE_COLUMNS imp) true)).
  { intros P HP. rewrite (sorted_Permutation np_lt snd _ true).
    apply Forall_forall. intros [k v] Hin%elem_of_zip_r.
    by apply (proj1 (Forall_forall _ _) HP). }
  eexists. split.
  { rewrite extract_feature_importance_sorted_zip, Himp. reflexivity. }
  split; [| split; [| split]].
  - by rewrite (sorted_Permutation np_lt snd _ true), length_zip, Hlen.
  - rewrite (sorted_Permutation np_lt snd _ true), fst_zip; [done |].
    by rewrite Hlen.
  - by apply (Hvals (fun v => np_nonneg v = true)).
  - intros Hfi Hcoef. apply (Hvals (fun v => v = Fin 0)). auto.
Qed.

(** ** Session *)

Lemma init_session_state_initialised st :
  initialised st -> init_session_state st = st.
Proof.
  destruct st as [a p f]. intros ([? Ha] & [? Hp] & [? Hf]).
  cbn in *. by subst.
Qed.

Lemma init_session_state_idemp st :
  init_session_state (init_session_state st) = init_session_state st.
Proof. reflexivity. Qed.

(** The session state one run of the script leaves. *)
Lemma script_state all_models w st :
  (script all_models w st).1 =
    if w_button w && model_loaded all_models (w_model_name w) then
      match evaluate all_models w with
      | Ok (prob, importance) => evaluated_state prob (top5 importance)
      | Raise _ => init_session_state st
      end
    else init_session_state st.
Proof.
  unfold script.
  destruct (w_button w); [| done].
  destruct (model_loaded all_models (w_model_name w)); [| done].
  cbn [negb andb]. by destruct (evaluate all_models w) as [[prob imp] | e].
Qed.

(** When the [try] block raises, it is the encoder, the lookup of the
    model, the inference or the extractor that raised. *)
Lemma evaluate_Raise all_models w e :
  evaluate all_models w = Raise e <->
  encode w = Raise e \/
  exists input_df,
    encode w = Ok input_df /\
    match w_model_name w ≫= (all_models !!.) with
    | None => e = Exception "KeyError" (default "None" (w_model_name w))
    | Some model =>
        predict_risk model input_df = Raise e \/
        exists prob,
          predict_risk model input_df = Ok prob /\
          extract_feature_importance model = Raise e
    end.
Proof.
  unfold evaluate. split.
  - destruct (encode w) as [df | e1]; cbn [mbind result_bind];
      [| intros [= ->]; by left].
    intros Hev. right. exists df. split; [done |].
    destruct (w_model_name w ≫= (all_models !!.)) as [model |];
      cbn [mbind result_bind] in Hev; [| congruence].
    destruct (predict_risk model df) as [prob | e2];
      cbn [mbind result_bind] in Hev; [| left; congruence].
    right. exists prob. split; [done |].
    destruct (extract_feature_importance model) as [imp | e3];
      cbn [mbind result_bind] in Hev; congruence.
  - intros [-> | (df & -> & Hev)]; cbn [mbind result_bind]; [done |].
    destruct (w_model_name w ≫= (all_models !!.)) as [model |];
      cbn [mbind result_bind]; [| congruence].
    destruct Hev as [-> | (prob & -> & ->)]; done.
Qed.

(** C8: when the run button is pressed for a loaded model and the encoder
    or the inference raises, the run displays the failure message followed
    by the text of the exception and nothing else, and the session state is
    the one the run started from: the flag, the probability and the
    importance map of an earlier assessment are untouched. *)
Theorem failed_evaluation_keeps_session all_models w st model e :
  w_button w = true ->
  w_model_name w ≫= (all_models !!.) = Some model ->
  (encode w = Raise e \/
   exists input_df,
     encode w = Ok input_df /\
     (predict_risk model input_df = Raise e \/
      exists prob,
        predict_risk model input_df = Ok prob /\
        extract_feature_importance model = Raise e)) ->
  script all_models w st
  = (init_session_state st,
     [st_error "Prediction failed."; st_error (str e)]) /\
  (initialised st -> (script all_models w st).1 = st).
Proof.
  intros Hbutton Hmodel Hraise.
  assert (Hev : evaluate all_models w = Raise e).
  { apply evaluate_Raise. rewrite Hmodel.
    destruct Hraise as [? | (df & ? & ?)]; [by left | right; eauto]. }
  assert (Hscript : script all_models w st
                    = (init_session_state st,
                       [st_error "Prediction failed."; st_error (str e)])).
  { unfold script, model_loaded. by rewrite Hbutton, Hmodel, Hev. }
  split; [done |].
  intros Hinit. rewrite Hscript. by apply init_session_state_initialised.
Qed.

Lemma failed_evaluation_keeps_session_witness :
  script {[ "Decision Tree" := broken_model ]}
    (default_widgets (Some "Decision Tree") true)
    (evaluated_state 0.82 [("cp", Fin 0.15); ("ca", Fin 0.14)])
  = (evaluated_state 0.82 [("cp", Fin 0.15); ("ca", Fin 0.14)],
     [ st_error "Prediction failed.";
       st_error "X has 13 features, but 5 were expected" ]).
Proof.
  refine (proj1 (failed_evaluation_keeps_session
                   {[ "Decision Tree" := broken_model ]}
                   (default_widgets (Some "Decision Tree") true)
                   (evaluated_state 0.82 [("cp", Fin 0.15); ("ca", Fin 0.14)])
                   broken_model
                   (Exception "ValueError"
                      "X has 13 features, but 5 were expected")
                   eq_refl eq_refl _)).
  right. eexists. split; [reflexivity |]. left. reflexivity.
Defined.

Section dict_length.
Context {V : Type}.
Implicit Types (d l : list (string * V)).

Lemma length_dict_setitem k (v : V) d :
  (length (dict_setitem k v d) <= S (length d))%nat.
Proof.
  induction d as [| [k' v'] d IH]; cbn; [lia |].
  destruct (String.eqb k k'); cbn; lia.
Qed.

Lemma length_dict_ l : (length (dict_ l) <= length l)%nat.
Proof.
  unfold dict_.
  enough (forall d,
             (length (foldl (fun d kv => dict_setitem kv.1 kv.2 d) d l)
              <= length d + length l)%nat) as Hgen by apply (Hgen []).
  induction l as [| [k v] l IH]; intros d; cbn; [lia |].
  specialize (IH (dict_setitem k v d)).
  pose proof (length_dict_setitem k v d). lia.
Qed.
End dict_length.

Lemma length_top5 importance : (length (top5 importance) <= 5)%nat.
Proof.
  unfold top5, items.
  pose proof (length_dict_ (take 5 importance)) as Hle.
  rewrite length_take in Hle. lia.
Qed.

Lemma run_session_snoc all_models actions w :
  run_session all_models (actions ++ [w])
  = (script all_models w (run_session all_models actions)).1.
Proof. unfold run_session. by rewrite foldl_app. Qed.

(** The session state tracks the last successful run. *)
Lemma run_session_last_success all_models actions :
  init_session_state (run_session all_models actions) =
    match last_success all_models actions with
    | None => idle_state
    | Some (prob, importance) => evaluated_state prob (top5 importance)
    end.
Proof.
  induction actions as [| w actions IH] using rev_ind; [reflexivity |].
  rewrite run_session_snoc, script_state.
  unfold last_success in *. rewrite foldl_app. cbn [foldl].
  destruct (w_button w && model_loaded all_models (w_model_name w));
    [| by rewrite init_session_state_idemp].
  destruct (evaluate all_models w) as [[prob imp] | e]; [reflexivity |].
  by rewrite init_session_state_idemp.
Qed.

(** C9: in a session the stored state is the idle one until a run goes
    through and from then on holds the assessment (probability and at most
    five importance entries) of the last run that went through.  A run of
    the script changes the stored state only when the run button was
    pressed and the evaluation returned, and then it stores that
    evaluation; an evaluated session never becomes idle again. *)
Theorem session_holds_last_assessment all_models actions :
  init_session_state (run_session all_models actions) =
    match last_success all_models actions with
    | None => idle_state
    | Some (prob, importance) => evaluated_state prob (top5 importance)
    end /\
  (forall top,
      feature_imp (run_session all_models actions) = Some top ->
      (length top <= 5)%nat) /\
  forall w,
    let st := run_session all_models actions in
    let st' := run_session all_models (actions ++ [w]) in
    (analysis_run st = Some true -> analysis_run st' = Some true) /\
    (w_button w = false -> st' = init_session_state st) /\
    (st' <> init_session_state st ->
     w_button w = true /\
     exists prob importance,
       evaluate all_models w = Ok (prob, importance) /\
       st' = evaluated_state prob (top5 importance)).
Proof.
  split; [apply run_session_last_success |]. split.
  - intros top Htop.
    pose proof (run_session_last_success all_models actions) as Hlast.
    apply (f_equal feature_imp) in Hlast. cbn in Hlast.
    rewrite Htop in Hlast. cbn in Hlast.
    destruct (last_success all_models actions) as [[prob imp] |];
      injection Hlast as ->; [apply length_top5 | cbn; lia].
  - intros w st st'. subst st'. rewrite run_session_snoc, script_state.
    fold st.
    destruct (w_button w); cbn [andb]; cycle 1.
    { split; [intros Hrun; cbn; by rewrite Hrun |]. split; done. }
    destruct (model_loaded all_models (w_model_name w)); cycle 1.
    { split; [intros Hrun; cbn; by rewrite Hrun |]. split; done. }
    destruct (evaluate all_models w) as [[prob imp] | e].
    + split; [done |]. split; [done |]. intros _. split; [done |]. eauto.
    + split; [intros Hrun; cbn; by rewrite Hrun |]. split; done.
Qed.

(** * Further properties of the code *)

(** ** Feature encoder *)

(** X1: whatever the widgets hold, the encoder returns a frame of exactly
    one row of thirteen cells under the thirteen feature columns, and a
    column has a cell exactly when it is one of the feature columns. *)
Theorem encode_frame_shape (w : widgets) :
  exists row,
    encode w = Ok (mkDataFrame FEATURE_COLUMNS [row]) /\
    length row = length FEATURE_COLUMNS /\
    length row = 13%nat /\
    forall col,
      is_Some (cell (mkDataFrame FEATURE_COLUMNS [row]) col) <->
      col ∈ FEATURE_COLUMNS.
Proof.
  unfold encode. rewrite preprocess_inputs_ok. eexists.
  split; [reflexivity |]. split; [reflexivity |]. split; [reflexivity |].
  intros col. unfold cell. cbn [data columns head mbind option_bind].
  rewrite <- not_eq_None_Some, <- not_elem_of_list_to_map.
  rewrite fst_zip by (cbn; lia).
  split; [apply dec_stable | tauto].
Qed.

(** X2: every coded cell lies in the value set of its column, whatever
    strings and glucose reading come in: sex, fbs and exang are 0 or 1, cp
    is 1 to 4, restecg 0 to 2, slope 1 to 3 and thal one of 3, 6, 7. *)
Theorem encoded_codes_in_range (w : widgets) :
  exists df sex cp fbs restecg exang slope thal,
    encode w = Ok df /\
    (cell df "sex" = Some (PyInt sex) /\ sex ∈ [0; 1]%Z) /\
    (cell df "cp" = Some (PyInt cp) /\ cp ∈ [1; 2; 3; 4]%Z) /\
    (cell df "fbs" = Some (PyInt fbs) /\ fbs ∈ [0; 1]%Z) /\
    (cell df "restecg" = Some (PyInt restecg) /\ restecg ∈ [0; 1; 2]%Z) /\
    (cell df "exang" = Some (PyInt exang) /\ exang ∈ [0; 1]%Z) /\
    (cell df "slope" = Some (PyInt slope) /\ slope ∈ [1; 2; 3]%Z) /\
    (cell df "thal" = Some (PyInt thal) /\ thal ∈ [3; 6; 7]%Z).
Proof.
  unfold encode. rewrite preprocess_inputs_ok.
  eexists _, _, _, _, _, _, _, _. split; [reflexivity |].
  rewrite get_cp_map, get_restecg_map, get_slope_map, get_thal_map.
  repeat split; try reflexivity; repeat case_match; set_solver.
Qed.

(** X3: the sex and exercise angina flags compare with one exact string:
    sex is 1 for ["Male"] and 0 for every other string, exang is 1 for
    ["Yes"] and 0 for every other string (another spelling or case
    included). *)
Theorem binary_flags_exact_match (w : widgets) :
  exists df sex exang,
    encode w = Ok df /\
    cell df "sex" = Some (PyInt sex) /\
    cell df "exang" = Some (PyInt exang) /\
    (sex = 1%Z <-> w_gender w = "Male") /\
    (sex = 0%Z <-> w_gender w <> "Male") /\
    (exang = 1%Z <-> w_exang w = "Yes") /\
    (exang = 0%Z <-> w_exang w <> "Yes").
Proof.
  unfold encode. rewrite preprocess_inputs_ok.
  eexists _, _, _. split; [reflexivity |]. do 2 (split; [reflexivity |]).
  destruct (String.eqb_spec (w_gender w) "Male");
    destruct (String.eqb_spec (w_exang w) "Yes");
    repeat split; intros; try done.
Qed.

(** Two choices of one select box with the same code are the same choice. *)
Ltac same_choice Ha Hb Hcode :=
  repeat (apply elem_of_cons in Ha as [Ha | Ha]);
  repeat (apply elem_of_cons in Hb as [Hb | Hb]);
  try (by apply elem_of_nil in Ha); try (by apply elem_of_nil in Hb);
  rewrite Ha, Hb in Hcode |- *;
  first [reflexivity | discriminate Hcode].

(** X4: on choices of the select boxes the encoding loses nothing but the
    glucose reading: two widget states with the same encoded frame agree on
    every field, and on which side of 120 their glucose readings lie. *)
Theorem encode_injective_on_choices (w1 w2 : widgets) :
  from_select_boxes w1 -> from_select_boxes w2 ->
  encode w1 = encode w2 ->
  w_age w1 = w_age w2 /\
  w_gender w1 = w_gender w2 /\
  w_cp w1 = w_cp w2 /\
  w_trestbps w1 = w_trestbps w2 /\
  w_chol w1 = w_chol w2 /\
  ((120 <? w_glucose w1)%Z = (120 <? w_glucose w2)%Z) /\
  w_restecg w1 = w_restecg w2 /\
  w_thalach w1 = w_thalach w2 /\
  w_exang w1 = w_exang w2 /\
  w_oldpeak w1 = w_oldpeak w2 /\
  w_slope w1 = w_slope w2 /\
  w_ca w1 = w_ca w2 /\
  w_thal w1 = w_thal w2.
Proof.
  intros (Hg1 & Hc1 & Hr1 & He1 & Hs1 & Ht1)
         (Hg2 & Hc2 & Hr2 & He2 & Hs2 & Ht2).
  unfold encode. rewrite !preprocess_inputs_ok. unfold float, inject_Z.
  intros [= Hage Hsex Hcp Hbps Hchol Hfbs Hecg Hthalach Hexang Holdpeak
            Hslope Hca Hthal].
  unfold gender_options, cp_options, restecg_options, exang_options,
    slope_options, thal_options in *.
  repeat split; try done.
  - same_choice Hg1 Hg2 Hsex.
  - same_choice Hc1 Hc2 Hcp.
  - by destruct (120 <? w_glucose w1)%Z, (120 <? w_glucose w2)%Z.
  - same_choice Hr1 Hr2 Hecg.
  - same_choice He1 He2 Hexang.
  - same_choice Hs1 Hs2 Hslope.
  - same_choice Ht1 Ht2 Hthal.
Qed.

Lemma encode_injective_on_choices_witness :
  w_age (default_widgets None true) = w_age (default_widgets (Some "x") false)
  /\ w_cp (default_widgets None true)
     = w_cp (default_widgets (Some "x") false).
Proof.
  destruct (encode_injective_on_choices
              (default_widgets None true)
              (default_widgets (Some "x") false)) as (Hage & _ & Hcp & _).
  - unfold from_select_boxes. cbn. repeat split; set_solver.
  - unfold from_select_boxes. cbn. repeat split; set_solver.
  - reflexivity.
  - by split.
Defined.

(** ** Risk tiers *)

(** X5: the tier never goes down when the probability goes up. *)
Theorem categorize_risk_monotone (p q : Q) :
  (p <= q)%Q ->
  (tier_rank (categorize_risk p) <= tier_rank (categorize_risk q))%nat.
Proof.
  intros Hpq. unfold categorize_risk.
  destruct (Qltb p 0.4) eqn:Hp4; [cbn; lia |].
  apply Qltb_ge in Hp4.
  destruct (Qltb q 0.4) eqn:Hq4.
  { apply Qltb_lt in Hq4. lra. }
  destruct (Qltb p 0.7) eqn:Hp7; [destruct (Qltb q 0.7); cbn; lia |].
  apply Qltb_ge in Hp7.
  destruct (Qltb q 0.7) eqn:Hq7; [| cbn; lia].
  apply Qltb_lt in Hq7. lra.
Qed.

Lemma categorize_risk_monotone_witness :
  (tier_rank (categorize_risk 0.35) <= tier_rank (categorize_risk 0.82))%nat.
Proof.
  apply (categorize_risk_monotone 0.35 0.82).
  unfold Qle. cbn. lia.
Defined.

(** ** Inference *)

(** The probability is the second entry of the first row. *)
Lemma predict_risk_Ok model input_df prob :
  predict_risk model input_df = Ok prob <->
  exists proba row,
    predict_proba model input_df = Ok proba /\
    proba !! 0%nat = Some row /\ row !! 1%nat = Some prob.
Proof.
  unfold predict_risk, getitem.
  destruct (predict_proba model input_df) as [proba | e];
    cbn [mbind result_bind].
  - destruct (proba !! 0%nat) as [row |] eqn:Hrow; cbn [mbind result_bind].
    + destruct (row !! 1%nat) as [p |] eqn:Hp.
      * split; [intros [= <-]; eauto |].
        intros (? & ? & [= <-] & ? & ?). congruence.
      * split; [done |]. intros (? & ? & [= <-] & ? & ?). congruence.
    + split; [done |]. intros (? & ? & [= <-] & ? & ?). congruence.
  - split; [done |]. by intros (? & ? & ? & _).
Qed.

(** X6: a classifier whose probabilities have no second column (it was
    fitted on one class) or no row makes every pressed run fail: the run
    shows the failure message and one exception text, draws no gauge, and
    leaves the session state as it found it. *)
Theorem single_column_proba_fails all_models w st model :
  w_button w = true ->
  w_model_name w ≫= (all_models !!.) = Some model ->
  (forall input_df,
      exists proba,
        predict_proba model input_df = Ok proba /\
        (proba = [] \/ exists row, head proba = Some row /\
                                   (length row < 2)%nat)) ->
  exists msg,
    script all_models w st
    = (init_session_state st,
       [st_error "Prediction failed."; st_error msg]).
Proof.
  intros Hbutton Hmodel Hproba.
  destruct (encode_frame_shape w) as (row & Hdf & _).
  destruct (Hproba (mkDataFrame FEATURE_COLUMNS [row]))
    as (proba & Hp & Hshape).
  assert (Hrisk : exists e,
             predict_risk model (mkDataFrame FEATURE_COLUMNS [row])
             = Raise e).
  { unfold predict_risk. rewrite Hp. cbn [mbind result_bind].
    destruct Hshape as [-> | (r & Hhead & Hlen)]; [by eexists |].
    destruct proba as [| r' proba]; [done |]. injection Hhead as ->.
    cbn [mbind result_bind getitem lookup list_lookup].
    destruct r as [| x [| y r]]; cbn in Hlen |- *; try lia; by eexists. }
  destruct Hrisk as [e Hrisk]. exists (str e).
  unfold script, model_loaded, evaluate.
  by rewrite Hbutton, Hmodel, Hdf; cbn [negb mbind result_bind];
    rewrite Hrisk.
Qed.

Lemma single_column_proba_fails_witness :
  exists msg,
    script {[ "Decision Tree" := single_class_model ]}
      (default_widgets (Some "Decision Tree") true) idle_state
    = (idle_state, [st_error "Prediction failed."; st_error msg]).
Proof.
  refine (single_column_proba_fails
            {[ "Decision Tree" := single_class_model ]}
            (default_widgets (Some "Decision Tree") true) idle_state
            single_class_model eq_refl _ _); [reflexivity |].
  intros df. exists [[1%Q]]. split; [reflexivity |].
  right. exists [1%Q]. split; [reflexivity | cbn; lia].
Defined.

(** ** Explanation extractor *)

(** [zip] stops at the end of the shorter list. *)
Lemma fst_zip_take {A B} (l : list A) (k : list B) :
  (zip l k).*1 = take (length k) l.
Proof.
  revert k. induction l as [| x l IH]; intros [| y k]; cbn; try done.
  by rewrite IH.
Qed.

(** X7: the extractor raises in one case only, a model without native
    importances whose coefficient array has no row; every other model gets
    a mapping. *)
Theorem extract_feature_importance_raises_iff model :
  (exists e, extract_feature_importance model = Raise e) <->
  feature_importances_ (inner_estimator model) = None /\
  coef_ (inner_estimator model) = Some [].
Proof.
  rewrite extract_feature_importance_sorted_zip. unfold importance_of.
  destruct (feature_importances_ (inner_estimator model)) as [fi |].
  { cbn. split; [by intros [e ?] | by intros [? _]]. }
  destruct (coef_ (inner_estimator model)) as [[| row rest] |]; cbn.
  - split; [done | eauto].
  - split; [by intros [e ?] | by intros [_ ?]].
  - split; [by intros [e ?] | by intros [_ ?]].
Qed.

(** X8: the mapping never has more than thirteen entries, its keys are
    distinct, and they are the first feature names, as many as the model
    gave scores: a model with fewer than thirteen scores gets a shorter
    mapping, not an error. *)
Theorem extract_feature_importance_keys model d :
  extract_feature_importance model = Ok d ->
  (length d <= 13)%nat /\
  NoDup d.*1 /\
  d.*1 ≡ₚ take (length d) FEATURE_COLUMNS /\
  exists importance,
    importance_of (inner_estimator model) = Ok importance /\
    length d = (13 `min` length importance)%nat.
Proof.
  intros Hd. pose proof (extract_feature_importance_NoDup _ _ Hd) as Hnd.
  apply extract_feature_importance_inv in Hd as (imp & Himp & ->).
  assert (Hlen : length (sorted np_lt snd (zip FEATURE_COLUMNS imp) true)
                 = (13 `min` length imp)%nat).
  { by rewrite (sorted_Permutation np_lt snd _ true), length_zip. }
  split; [lia |]. split; [done |]. split; [| eauto].
  rewrite Hlen, (sorted_Permutation np_lt snd _ true), fst_zip_take.
  rewrite Nat.min_comm, <- take_take.
  by change (take 13 FEATURE_COLUMNS) with FEATURE_COLUMNS.
Qed.

Lemma extract_feature_importance_keys_witness :
  extract_feature_importance short_forest
  = Ok [("sex", Fin 0.5); ("cp", Fin 0.3); ("age", Fin 0.2)] /\
  (length [("sex", Fin 0.5); ("cp", Fin 0.3); ("age", Fin 0.2)] <= 13)%nat.
Proof.
  split; [reflexivity |].
  exact (proj1 (extract_feature_importance_keys short_forest _ eq_refl)).
Defined.

Lemma snd_zip_take {A B} (l : list A) (k : list B) :
  (zip l k).*2 = take (length l) k.
Proof.
  revert k. induction l as [| x l IH]; intros [| y k]; cbn; try done.
  by rewrite IH.
Qed.

(** X9: native importances win over coefficients and are passed through
    as they are, neither normalised nor clipped: the scores of the mapping
    are the first thirteen native importances, reordered. *)
Theorem native_importances_pass_through model fi :
  feature_importances_ (inner_estimator model) = Some fi ->
  exists d,
    extract_feature_importance model = Ok d /\
    d.*2 ≡ₚ Fin <$> take 13 fi.
Proof.
  intros Hfi. eexists. split.
  { rewrite extract_feature_importance_sorted_zip. unfold importance_of.
    rewrite Hfi. reflexivity. }
  by rewrite (sorted_Permutation np_lt snd _ true), snd_zip_take, fmap_take.
Qed.

Lemma native_importances_pass_through_witness :
  exists d,
    extract_feature_importance sample_forest = Ok d /\
    d.*2 ≡ₚ Fin <$> [0.10; 0.03; 0.15; 0.05; 0.07; 0.01; 0.02;
                     0.12; 0.08; 0.11; 0.06; 0.14; 0.06]%Q.
Proof.
  exact (native_importances_pass_through sample_forest _ eq_refl).
Defined.

(** X10: a model with neither importances nor coefficients gets the
    thirteen features with score zero in column order, so the five entries
    the page keeps are age, sex, cp, trestbps and chol, each with zero. *)
Theorem no_introspection_all_zero model :
  feature_importances_ (inner_estimator model) = None ->
  coef_ (inner_estimator model) = None ->
  extract_feature_importance model
  = Ok (zip FEATURE_COLUMNS (replicate 13 (Fin 0))) /\
  top5 (zip FEATURE_COLUMNS (replicate 13 (Fin 0)))
  = [ ("age", Fin 0); ("sex", Fin 0); ("cp", Fin 0); ("trestbps", Fin 0);
      ("chol", Fin 0) ].
Proof.
  intros Hfi Hcoef. split; [| reflexivity].
  rewrite extract_feature_importance_sorted_zip. unfold importance_of.
  rewrite Hfi, Hcoef. reflexivity.
Qed.

Lemma no_introspection_all_zero_witness :
  extract_feature_importance (pipeline opaque_model)
  = Ok (zip FEATURE_COLUMNS (replicate 13 (Fin 0))).
Proof.
  exact (proj1 (no_introspection_all_zero (pipeline opaque_model)
                  eq_refl eq_refl)).
Defined.

Section sorted_identity.
Context {A K : Type} (lt : K -> K -> bool) (key : A -> K).
Implicit Types (l : list A).

Lemma sort_stable_ascending l :
  StronglySorted (ascending lt key) l -> sort_stable lt key l = l.
Proof.
  induction 1 as [| x l Hs IH Hx]; [reflexivity |].
  change (sort_stable lt key (x :: l))
    with (insert_stable lt key x (sort_stable lt key l)).
  rewrite IH. destruct l as [| y l]; [reflexivity |]. cbn.
  apply Forall_cons in Hx as [Hy _]. unfold ascending in Hy.
  by rewrite Hy.
Qed.

(** A list in which no element is followed by one with a greater key
    comes back from [sorted(..., reverse=True)] as it went in. *)
Lemma sorted_reverse_descending l :
  StronglySorted (fun x y => lt (key x) (key y) = false) l ->
  sorted lt key l true = l.
Proof.
  intros Hs. cbn.
  rewrite sort_stable_ascending; [apply reverse_involutive |].
  by apply (StronglySorted_reverse _ _ Hs).
Qed.
End sorted_identity.

Lemma StronglySorted_zip_snd {A B} (R : relation B) (l : list A)
    (k : list B) :
  StronglySorted R k -> StronglySorted (fun a b => R a.2 b.2) (zip l k).
Proof.
  intros Hk. revert l.
  induction Hk as [| y k Hk IH Hy]; intros [| x l]; cbn; try constructor.
  - apply IH.
  - apply Forall_forall. intros [a b] Hin%elem_of_zip_r.
    by apply (proj1 (Forall_forall _ _) Hy).
Qed.

(** X11: when the native importances already come in non-increasing
    order, equal neighbours included, the mapping lists the features in
    column order: sorting moves nothing and ties keep their place. *)
Theorem descending_importances_keep_column_order model fi :
  feature_importances_ (inner_estimator model) = Some fi ->
  StronglySorted (fun a b => (b <= a)%Q) fi ->
  extract_feature_importance model
  = Ok (zip FEATURE_COLUMNS (Fin <$> fi)).
Proof.
  intros Hfi Hs.
  rewrite extract_feature_importance_sorted_zip. unfold importance_of.
  rewrite Hfi. cbn [mbind result_bind]. f_equal.
  apply sorted_reverse_descending.
  apply (StronglySorted_zip_snd (fun a b => np_lt a b = false)).
  eapply StronglySorted_fmap; [| exact Hs].
  intros a b Hab. by apply Qltb_ge.
Qed.

Lemma descending_importances_keep_column_order_witness :
  extract_feature_importance ranked_forest
  = Ok [ ("age", Fin 0.5); ("sex", Fin 0.25); ("cp", Fin 0.25);
         ("trestbps", Fin 0) ].
Proof.
  refine (descending_importances_keep_column_order ranked_forest
            [0.5; 0.25; 0.25; 0]%Q eq_refl _).
  repeat constructor; unfold Qle; cbn; lia.
Defined.

Lemma Qabs_Qopp (x : Q) : Qabs (- x) = Qabs x.
Proof. destruct x as [n d]. unfold Qabs, Qopp. cbn. by rewrite Z.abs_opp. Qed.

(** X12: for a linear model only the first row of the coefficient array
    counts, and only the size of its entries: flipping the sign of every
    coefficient and replacing the other rows leaves the mapping as it
    was. *)
Theorem linear_scores_ignore_sign_and_other_rows model1 model2 row rest1
    rest2 :
  feature_importances_ (inner_estimator model1) = None ->
  feature_importances_ (inner_estimator model2) = None ->
  coef_ (inner_estimator model1) = Some (row :: rest1) ->
  coef_ (inner_estimator model2) = Some ((Qopp <$> row) :: rest2) ->
  extract_feature_importance model1 = extract_feature_importance model2.
Proof.
  intros Hfi1 Hfi2 Hcoef1 Hcoef2.
  rewrite !extract_feature_importance_sorted_zip. unfold importance_of.
  rewrite Hfi1, Hfi2, Hcoef1, Hcoef2. cbn [getitem lookup list_lookup].
  cbn [mbind result_bind].
  assert (Habs : np_abs (Qopp <$> row) = np_abs row).
  { unfold np_abs. rewrite <- list_fmap_compose. apply list_fmap_ext.
    intros _ x _. apply Qabs_Qopp. }
  by rewrite Habs.
Qed.

Lemma linear_scores_ignore_sign_and_other_rows_witness :
  extract_feature_importance (linear_model sample_coefficients)
  = extract_feature_importance flipped_logistic.
Proof.
  exact (linear_scores_ignore_sign_and_other_rows
           (linear_model sample_coefficients) flipped_logistic
           sample_coefficients [] [sample_coefficients]
           eq_refl eq_refl eq_refl eq_refl).
Defined.

(** X13: when the coefficients of a linear model are not all zero, however
    many there are, every score of the mapping is a number between 0 and
    1. *)
Theorem linear_scores_between_0_and_1 model row rest :
  feature_importances_ (inner_estimator model) = None ->
  coef_ (inner_estimator model) = Some (row :: rest) ->
  ~ (np_sum (np_abs row) == 0)%Q ->
  exists d,
    extract_feature_importance model = Ok d /\
    forall name v,
      (name, v) ∈ d -> exists q, v = Fin q /\ (0 <= q <= 1)%Q.
Proof.
  intros Hfi Hcoef Hs. eexists. split.
  { rewrite extract_feature_importance_sorted_zip.
    by rewrite (importance_of_linear _ row rest). }
  intros name v. rewrite (sorted_Permutation np_lt snd _ true).
  intros Hin%elem_of_zip_r.
  apply list_elem_of_fmap in Hin as (q & -> & Hq).
  apply list_elem_of_fmap in Hq as (x & -> & Hx).
  exists (x / np_sum (np_abs row))%Q. split; [done |].
  apply elem_of_np_abs_le_sum in Hx as [Hx0 Hx1].
  assert (Hpos : (0 < np_sum (np_abs row))%Q).
  { pose proof (np_sum_abs_nonneg row) as Hge.
    apply Qle_lteq in Hge as [? | Heq]; [done |].
    exfalso. apply Hs. by symmetry. }
  split.
  - apply Qle_shift_div_l; [done | lra].
  - apply Qle_shift_div_r; [done | lra].
Qed.

Lemma linear_scores_between_0_and_1_witness :
  exists d,
    extract_feature_importance sample_logistic = Ok d /\
    forall name v,
      (name, v) ∈ d -> exists q, v = Fin q /\ (0 <= q <= 1)%Q.
Proof.
  refine (linear_scores_between_0_and_1 sample_logistic
            sample_coefficients [] eq_refl eq_refl _).
  vm_compute. discriminate.
Defined.

(** ** Model loading *)

(** X14: loading is all or nothing.  Either the three artefacts load and
    the registry holds exactly the three display names with nothing shown,
    or the registry is empty and two error boxes show the failure banner
    and the text of the exception of the first artefact, in the order
    logistic regression, decision tree, random forest, that failed. *)
Theorem load_models_all_or_nothing (joblib_load : string -> result estimator) :
  (exists lr dt rf,
      joblib_load "logistic_regression.pkl" = Ok lr /\
      joblib_load "decision_tree.pkl" = Ok dt /\
      joblib_load "random_forest.pkl" = Ok rf /\
      load_models joblib_load
      = ({[ "Logistic Regression" := lr; "Decision Tree" := dt;
            "Random Forest" := rf ]}, []) /\
      dom (load_models joblib_load).1
      = ({[ "Logistic Regression"; "Decision Tree"; "Random Forest" ]}
           : gset string)) \/
  (exists e,
      (joblib_load "logistic_regression.pkl" = Raise e \/
       (is_Ok_load joblib_load "logistic_regression.pkl" /\
        joblib_load "decision_tree.pkl" = Raise e) \/
       (is_Ok_load joblib_load "logistic_regression.pkl" /\
        is_Ok_load joblib_load "decision_tree.pkl" /\
        joblib_load "random_forest.pkl" = Raise e)) /\
      load_models joblib_load
      = (∅, [st_error "🚨 Model loading failed"; st_error (str e)])).
Proof.
  unfold load_models, is_Ok_load.
  destruct (joblib_load "logistic_regression.pkl") as [lr | e1];
    cbn [mbind result_bind]; [| right; eauto].
  destruct (joblib_load "decision_tree.pkl") as [dt | e2];
    cbn [mbind result_bind]; [| right; eauto 10].
  destruct (joblib_load "random_forest.pkl") as [rf | e3];
    cbn [mbind result_bind]; [| right; eauto 10].
  left. exists lr, dt, rf. do 4 (split; [reflexivity |]). cbn [fst].
  rewrite !dom_insert_L, dom_singleton_L. set_solver.
Qed.

(** ** Runs of the script *)

Lemma last_success_empty actions : last_success ∅ actions = None.
Proof.
  unfold last_success.
  induction actions as [| w actions IH] using rev_ind; [reflexivity |].
  rewrite foldl_app. cbn [foldl]. rewrite IH.
  unfold model_loaded. destruct (w_model_name w) as [name |]; cbn.
  - rewrite lookup_empty. by rewrite andb_false_r.
  - by rewrite andb_false_r.
Qed.

(** X15: when one of the three artefacts fails to load, the registry is
    empty and the page can never assess.  Every run of the page shows the
    two error boxes of the load; a press of the run button adds the
    message that the model is not loaded and changes nothing; and through
    every sequence of actions the session stays idle and no gauge is
    drawn. *)
Theorem failed_load_never_evaluates joblib_load name e :
  name ∈ model_files ->
  joblib_load name = Raise e ->
  exists e',
    load_models joblib_load
    = (∅, [st_error "🚨 Model loading failed"; st_error (str e')]) /\
    (forall w st,
        w_button w = true ->
        page joblib_load w st
        = (init_session_state st,
           [ st_error "🚨 Model loading failed"; st_error (str e');
             st_error "Model not loaded properly." ])) /\
    (forall actions w,
        page joblib_load w
          (run_session (load_models joblib_load).1 actions)
        = (idle_state,
           [st_error "🚨 Model loading failed"; st_error (str e')]
           ++ if w_button w then [st_error "Model not loaded properly."]
              else [])).
Proof.
  intros Hname Hload.
  assert (Hfail : exists e',
             load_models joblib_load
             = (∅, [st_error "🚨 Model loading failed"; st_error (str e')])).
  { unfold load_models, model_files in *.
    repeat (apply elem_of_cons in Hname as [-> | Hname]);
      [| | | by apply elem_of_nil in Hname].
    - rewrite Hload. by eexists.
    - destruct (joblib_load "logistic_regression.pkl");
        cbn [mbind result_bind]; [| by eexists].
      rewrite Hload. by eexists.
    - destruct (joblib_load "logistic_regression.pkl");
        cbn [mbind result_bind]; [| by eexists].
      destruct (joblib_load "decision_tree.pkl");
        cbn [mbind result_bind]; [| by eexists].
      rewrite Hload. by eexists. }
  destruct Hfail as [e' Hfail]. exists e'. split; [done |].
  assert (Hpress : forall w st,
             script ∅ w st
             = (init_session_state st,
                if w_button w then [st_error "Model not loaded properly."]
                else render (init_session_state st))).
  { intros w st. unfold script, model_loaded.
    destruct (w_button w); [| done].
    destruct (w_model_name w) as [n |]; cbn; [| done].
    by rewrite lookup_empty. }
  split.
  - intros w st Hbutton. unfold page. rewrite Hfail. cbn [fst snd].
    by rewrite Hpress, Hbutton.
  - intros actions w. unfold page. rewrite Hfail. cbn [fst snd].
    rewrite Hpress.
    pose proof (run_session_last_success ∅ actions) as Hidle.
    rewrite last_success_empty in Hidle. rewrite Hidle. cbn [fst snd].
    by destruct (w_button w).
Qed.

Lemma failed_load_never_evaluates_witness :
  exists e',
    page missing_forest (default_widgets None true) new_session
    = (idle_state,
       [ st_error "🚨 Model loading failed"; st_error (str e');
         st_error "Model not loaded properly." ]).
Proof.
  destruct (failed_load_never_evaluates missing_forest "random_forest.pkl"
              (Exception "FileNotFoundError" "No such file or directory"))
    as (e' & _ & Hrun & _).
  - unfold model_files. set_solver.
  - reflexivity.
  - exists e'.
    exact (Hrun (default_widgets None true) new_session eq_refl).
Defined.

Lemma evaluate_Ok all_models w prob importance :
  evaluate all_models w = Ok (prob, importance) ->
  exists input_df model,
    encode w = Ok input_df /\
    w_model_name w ≫= (all_models !!.) = Some model /\
    predict_risk model input_df = Ok prob /\
    extract_feature_importance model = Ok importance.
Proof.
  unfold evaluate.
  destruct (encode w) as [df |] eqn:Hdf; cbn [mbind result_bind]; [| done].
  destruct (w_model_name w ≫= (all_models !!.)) as [model |] eqn:Hmodel;
    cbn [mbind result_bind]; [| done].
  destruct (predict_risk model df) as [p |] eqn:Hp;
    cbn [mbind result_bind]; [| done].
  destruct (extract_feature_importance model) as [imp |] eqn:Himp;
    cbn [mbind result_bind]; [| done].
  intros [= <- <-]. by exists df, model.
Qed.

(** X16: a run that goes through stores and shows its result at once: the
    new state holds the probability and the first five entries of the
    extractor's mapping, and the page shows one gauge followed by one line
    per kept entry, in the order of the mapping, six items at most. *)
Theorem successful_run_displays_result all_models w st prob importance :
  w_button w = true ->
  model_loaded all_models (w_model_name w) = true ->
  evaluate all_models w = Ok (prob, importance) ->
  exists level percent color pulse,
    script all_models w st
    = (evaluated_state prob (take 5 importance),
       st_gauge level percent color pulse
         :: ((fun fv => st_write fv.1 fv.2) <$> take 5 importance)) /\
    level = categorize_risk prob /\
    (length (script all_models w st).2 <= 6)%nat.
Proof.
  intros Hbutton Hloaded Hev.
  pose proof Hev as (df & model & _ & _ & _ & Hex)%evaluate_Ok.
  apply top5_take in Hex.
  unfold script. rewrite Hbutton, Hloaded, Hev. cbn [negb].
  rewrite Hex. unfold render, evaluated_state, items.
  cbn [analysis_run risk_prob feature_imp].
  eexists _, _, _, _. split; [reflexivity |]. split; [reflexivity |].
  cbn [snd length]. rewrite length_fmap, length_take. lia.
Qed.

Lemma successful_run_displays_result_witness :
  exists level percent color pulse,
    script {[ "Random Forest" := sample_forest ]}
      (default_widgets (Some "Random Forest") true) new_session
    = (evaluated_state 0.82
         [ ("cp", Fin 0.15); ("ca", Fin 0.14); ("thalach", Fin 0.12);
           ("oldpeak", Fin 0.11); ("age", Fin 0.10) ],
       [ st_gauge level percent color pulse;
         st_write "cp" (Fin 0.15); st_write "ca" (Fin 0.14);
         st_write "thalach" (Fin 0.12); st_write "oldpeak" (Fin 0.11);
         st_write "age" (Fin 0.10) ]) /\
    level = HIGH.
Proof.
  destruct (successful_run_displays_result
              {[ "Random Forest" := sample_forest ]}
              (default_widgets (Some "Random Forest") true) new_session
              0.82%Q
              [ ("cp", Fin 0.15); ("ca", Fin 0.14); ("thalach", Fin 0.12);
                ("oldpeak", Fin 0.11); ("age", Fin 0.10);
                ("exang", Fin 0.08); ("chol", Fin 0.07);
                ("slope", Fin 0.06); ("thal", Fin 0.06);
                ("trestbps", Fin 0.05); ("sex", Fin 0.03);
                ("restecg", Fin 0.02); ("fbs", Fin 0.01) ]
              eq_refl)
    as (level & percent & color & pulse & Hrun & Hlevel & _).
  - reflexivity.
  - reflexivity.
  - exists level, percent, color, pulse. split; [exact Hrun |].
    rewrite Hlevel. reflexivity.
Defined.

(** X17: the result stays on the page.  After a run that went through, a
    later run of the script without the button pressed, whatever the
    widgets now hold, leaves the state alone and shows exactly what that
    run showed. *)
Theorem rerun_shows_last_result all_models w1 w2 st prob importance :
  w_button w1 = true ->
  model_loaded all_models (w_model_name w1) = true ->
  evaluate all_models w1 = Ok (prob, importance) ->
  w_button w2 = false ->
  script all_models w2 (script all_models w1 st).1
  = script all_models w1 st.
Proof.
  intros Hbutton1 Hloaded Hev Hbutton2.
  unfold script. rewrite Hbutton1, Hbutton2, Hloaded, Hev. reflexivity.
Qed.

Lemma rerun_shows_last_result_witness :
  script {[ "Random Forest" := sample_forest ]}
    (default_widgets (Some "Decision Tree") false)
    (script {[ "Random Forest" := sample_forest ]}
       (default_widgets (Some "Random Forest") true) new_session).1
  = script {[ "Random Forest" := sample_forest ]}
      (default_widgets (Some "Random Forest") true) new_session.
Proof.
  refine (rerun_shows_last_result
            {[ "Random Forest" := sample_forest ]}
            (default_widgets (Some "Random Forest") true)
            (default_widgets (Some "Decision Tree") false) new_session
            0.82%Q
            [ ("cp", Fin 0.15); ("ca", Fin 0.14); ("thalach", Fin 0.12);
              ("oldpeak", Fin 0.11); ("age", Fin 0.10);
              ("exang", Fin 0.08); ("chol", Fin 0.07);
              ("slope", Fin 0.06); ("thal", Fin 0.06);
              ("trestbps", Fin 0.05); ("sex", Fin 0.03);
              ("restecg", Fin 0.02); ("fbs", Fin 0.01) ]
            eq_refl _ _ eq_refl); reflexivity.
Defined.

(** ** The gauge *)

Lemma int_percent_bounds (prob : Q) :
  (0 <= prob <= 1)%Q -> (0 <= int (prob * 100) <= 100)%Z.
Proof.
  destruct prob as [n d]. unfold Qle, int. cbn. intros [Hlo Hhi].
  assert (Hd : (0 < Z.pos (d * 1))%Z) by lia.
  split.
  - apply Z.quot_pos; lia.
  - apply Z.quot_le_upper_bound; lia.
Qed.

(** X18: for a stored probability between 0 and 1 the page shows one
    gauge, whose percentage lies between 0 and 100, followed by one line
    per stored factor; the gauge is red and pulses exactly from 0.70 up, is
    yellow exactly from 0.40 up to 0.70, and green exactly below 0.40. *)
Theorem gauge_of_probability (prob : Q) (top : list (string * np_float)) :
  (0 <= prob <= 1)%Q ->
  exists percent color pulse,
    render (evaluated_state prob top)
    = st_gauge (categorize_risk prob) percent color pulse
        :: ((fun fv => st_write fv.1 fv.2) <$> top) /\
    (0 <= percent <= 100)%Z /\
    (pulse = true <-> (0.7 <= prob)%Q) /\
    (color = "#ef4444" <-> (0.7 <= prob)%Q) /\
    (color = "#facc15" <-> (0.4 <= prob)%Q /\ (prob < 0.7)%Q) /\
    (color = "#22c55e" <-> (prob < 0.4)%Q).
Proof.
  intros Hprob. eexists _, _, _. split; [reflexivity |].
  split; [by apply int_percent_bounds |].
  unfold categorize_risk.
  destruct (Qltb prob 0.4) eqn:H4; [| destruct (Qltb prob 0.7) eqn:H7];
    repeat match goal with
           | H : Qltb _ _ = true |- _ => apply Qltb_lt in H
           | H : Qltb _ _ = false |- _ => apply Qltb_ge in H
           end;
    repeat split; intros; try done; try lra.
Qed.

Lemma gauge_of_probability_witness :
  exists percent color pulse,
    render (evaluated_state 0.75 [("cp", Fin 0.15)])
    = [st_gauge HIGH percent color pulse; st_write "cp" (Fin 0.15)] /\
    (0 <= percent <= 100)%Z /\
    (pulse = true <-> (0.7 <= 0.75)%Q).
Proof.
  destruct (gauge_of_probability 0.75 [("cp", Fin 0.15)])
    as (percent & color & pulse & Hrender & Hbounds & Hpulse & _).
  - unfold Qle. cbn. lia.
  - exists percent, color, pulse. split; [exact Hrender |]. by split.
Defined.

(** X19: once the three artefacts have loaded, the models the run button
    accepts are exactly the three display names: a selection of one of
    them passes the loaded check, any other name and an empty selection do
    not. *)
Theorem loaded_models_are_the_three_names joblib_load selection :
  (forall name, name ∈ model_files -> is_Ok_load joblib_load name) ->
  model_loaded (load_models joblib_load).1 selection = true <->
  exists name,
    selection = Some name /\
    name ∈ ["Logistic Regression"; "Decision Tree"; "Random Forest"].
Proof.
  intros Hok. unfold model_files in Hok.
  destruct (Hok "logistic_regression.pkl") as [lr Hlr]; [set_solver |].
  destruct (Hok "decision_tree.pkl") as [dt Hdt]; [set_solver |].
  destruct (Hok "random_forest.pkl") as [rf Hrf]; [set_solver |].
  unfold load_models, model_loaded. rewrite Hlr, Hdt, Hrf.
  cbn [mbind result_bind fst].
  destruct selection as [name |]; cbn [mbind option_bind]; cycle 1.
  { split; [done | by intros (? & ? & _)]. }
  destruct (decide (name = "Logistic Regression")) as [-> | Hn1].
  { rewrite lookup_insert_eq. split; [| done].
    intros _. eexists. split; [done | set_solver]. }
  rewrite lookup_insert_ne by done.
  destruct (decide (name = "Decision Tree")) as [-> | Hn2].
  { rewrite lookup_insert_eq. split; [| done].
    intros _. eexists. split; [done | set_solver]. }
  rewrite lookup_insert_ne by done.
  destruct (decide (name = "Random Forest")) as [-> | Hn3].
  { rewrite lookup_singleton_eq. split; [| done].
    intros _. eexists. split; [done | set_solver]. }
  rewrite lookup_singleton_ne by done.
  split; [done |]. intros (? & [= <-] & Hin).
  repeat (apply elem_of_cons in Hin as [? | Hin]); try done.
  by apply elem_of_nil in Hin.
Qed.

Lemma loaded_models_are_the_three_names_witness :
  model_loaded (load_models (fun _ => Ok sample_forest)).1
    (Some "Decision Tree") = true.
Proof.
  apply (loaded_models_are_the_three_names (fun _ => Ok sample_forest)).
  - intros name _. by exists sample_forest.
  - exists "Decision Tree". split; [reflexivity | set_solver].
Defined.
